(** * examples/test-app.py: the order-processing trace generator

    A shallow embedding of the script [examples/test-app.py] and of the part
    of the OpenTelemetry Python API/SDK that the script calls
    ([tracer.start_as_current_span], [Span.set_attribute], [Span.add_event],
    [BatchSpanProcessor], [TracerProvider.force_flush]), of Python's [random]
    and [time.sleep], and of the delivery of Ctrl+C as [KeyboardInterrupt].

    The script is effectful: it mutates span objects, the current-span
    context, the processor queue, the generator of the [random] module and
    standard output, and it raises and catches exceptions.  All of it is
    modelled in one state-and-exception monad [M] over a record [World]. *)

From Stdlib Require Import ZArith NArith QArith Ascii String List Lia.
From Stdlib Require Import DecimalString DecimalN DecimalFacts.
From stdpp Require Import gmap strings list fin_maps.

Local Open Scope string_scope.
Local Open Scope Z_scope.

(** ** Span data model (opentelemetry.sdk.trace) *)

(** Attribute values the script stores: str, int and bool. *)
Inductive AttrValue :=
| VStr (s : string)
| VInt (n : Z)
| VBool (b : bool).

Record Event := mkEvent {
  ev_name : string;
  ev_attributes : gmap string AttrValue
}.

Inductive StatusCode := UNSET | OK | ERROR.

Record Status := mkStatus {
  status_code : StatusCode;
  description : option string
}.

(** The immutable identity of a span. *)
Record SpanContext := mkSpanContext {
  trace_id : nat;
  span_id : nat
}.

Record Span := mkSpan {
  sp_name : string;
  sp_context : SpanContext;
  sp_parent : option SpanContext;
  sp_attributes : gmap string AttrValue;
  sp_events : list Event;
  sp_status : Status;
  sp_ended : bool
}.

Definition span_set_attributes (a : gmap string AttrValue) (s : Span) : Span :=
  mkSpan (sp_name s) (sp_context s) (sp_parent s) a (sp_events s)
         (sp_status s) (sp_ended s).

Definition span_set_events (e : list Event) (s : Span) : Span :=
  mkSpan (sp_name s) (sp_context s) (sp_parent s) (sp_attributes s) e
         (sp_status s) (sp_ended s).

Definition span_set_status (st : Status) (s : Span) : Span :=
  mkSpan (sp_name s) (sp_context s) (sp_parent s) (sp_attributes s)
         (sp_events s) st (sp_ended s).

Definition span_set_ended (s : Span) : Span :=
  mkSpan (sp_name s) (sp_context s) (sp_parent s) (sp_attributes s)
         (sp_events s) (sp_status s) true.

(** ** Exceptions *)

(** The exception classes that occur: [Exception] itself (raised by
    [process_payment]), [IndexError] (what [random.choice] raises on an empty
    sequence; a subclass of [Exception]) and [KeyboardInterrupt] (a
    [BaseException] that is not an [Exception]). *)
Inductive ExcClass := ExceptionCls | IndexErrorCls | KeyboardInterruptCls.

Record exn := mkExn { exc_class : ExcClass; exc_msg : string }.

Definition class_name (c : ExcClass) : string :=
  match c with
  | ExceptionCls => "Exception"
  | IndexErrorCls => "IndexError"
  | KeyboardInterruptCls => "KeyboardInterrupt"
  end.

(** [isinstance(e, Exception)]: what [except Exception] catches. *)
Definition is_Exception (e : exn) : bool :=
  match exc_class e with
  | ExceptionCls | IndexErrorCls => true
  | KeyboardInterruptCls => false
  end.

(** [isinstance(e, KeyboardInterrupt)]. *)
Definition is_KeyboardInterrupt (e : exn) : bool :=
  match exc_class e with
  | KeyboardInterruptCls => true
  | _ => false
  end.

(** ** Observable effects *)

(** The value of [random.uniform(lo, hi)]: [lo + (hi - lo) * draw / 2^53],
    kept symbolic (a float; nothing in the script inspects it). *)
Record Duration := mkDuration { d_lo : Q; d_hi : Q; d_draw : Z }.

Inductive Effect :=
| Print (line : string)
| Sleep (d : Duration)
| ForceFlush (timeout_millis : Z).

(** ** The world the script runs in *)

Record World := mkWorld {
  (** the generator of the [random] module: an arbitrary stream of raw
      draws and the position of the next one *)
  rng : nat -> Z;
  cursor : nat;
  (** Ctrl+C: [Some k] when the interrupt arrives during the [k]-th
      [time.sleep] from now (counting from 0), [None] when none arrives *)
  sigint : option nat;
  (** the current-span context: the spans attached and not yet detached,
      innermost first *)
  ctx : list SpanContext;
  (** the SDK's id generator, as a counter: ids are fresh *)
  next_id : nat;
  (** the span objects, by span id (a handle is a span id) *)
  spans : gmap nat Span;
  (** BatchSpanProcessor: the spans handed to [on_end] and not yet exported
      by [force_flush], and the spans [force_flush] handed to the exporter.
      The processor's worker thread, which also exports on its timer and
      when a batch is full, is not modelled: [exported ++ queue] is what the
      processor was handed, in order, however it is split *)
  queue : list Span;
  exported : list Span;
  (** standard output, sleeps and flushes, oldest first *)
  out : list Effect
}.

Definition set_cursor (c : nat) (w : World) : World :=
  mkWorld (rng w) c (sigint w) (ctx w) (next_id w) (spans w) (queue w)
          (exported w) (out w).
Definition set_sigint (k : option nat) (w : World) : World :=
  mkWorld (rng w) (cursor w) k (ctx w) (next_id w) (spans w) (queue w)
          (exported w) (out w).
Definition set_ctx (c : list SpanContext) (w : World) : World :=
  mkWorld (rng w) (cursor w) (sigint w) c (next_id w) (spans w) (queue w)
          (exported w) (out w).
Definition set_next_id (n : nat) (w : World) : World :=
  mkWorld (rng w) (cursor w) (sigint w) (ctx w) n (spans w) (queue w)
          (exported w) (out w).
Definition set_spans (h : gmap nat Span) (w : World) : World :=
  mkWorld (rng w) (cursor w) (sigint w) (ctx w) (next_id w) h (queue w)
          (exported w) (out w).
Definition set_queue (q : list Span) (w : World) : World :=
  mkWorld (rng w) (cursor w) (sigint w) (ctx w) (next_id w) (spans w) q
          (exported w) (out w).
Definition set_exported (x : list Span) (w : World) : World :=
  mkWorld (rng w) (cursor w) (sigint w) (ctx w) (next_id w) (spans w)
          (queue w) x (out w).
Definition set_out (o : list Effect) (w : World) : World :=
  mkWorld (rng w) (cursor w) (sigint w) (ctx w) (next_id w) (spans w)
          (queue w) (exported w) o.

(** ** The monad: state, exceptions, and a loop that is still running *)

Inductive Outcome (A : Type) :=
| Returned (a : A)
| Raised (e : exn)
| Running.
Arguments Returned {A} a.
Arguments Raised {A} e.
Arguments Running {A}.

Definition M (A : Type) : Type := World -> Outcome A * World.

Definition ret {A} (a : A) : M A := fun w => (Returned a, w).

Definition bind {A B} (m : M A) (f : A -> M B) : M B := fun w =>
  match m w with
  | (Returned a, w1) => f a w1
  | (Raised e, w1) => (Raised e, w1)
  | (Running, w1) => (Running, w1)
  end.

Definition raise {A} (e : exn) : M A := fun w => (Raised e, w).

(** Out of fuel: the [while True] loop has not ended yet. *)
Definition running {A} : M A := fun w => (Running, w).

Declare Scope py_scope.
Delimit Scope py_scope with py.
Notation "x ← y ; z" := (bind y (fun x => z))
  (at level 20, y at level 100, z at level 200, only parsing) : py_scope.
Notation "x ;; z" := (bind x (fun _ => z))
  (at level 100, z at level 200, only parsing, right associativity) : py_scope.
Local Open Scope py_scope.

(** [try: body / except <class>: handler]; [catches] is the isinstance
    test of the except clause. *)
Definition try_except {A} (catches : exn -> bool) (body : M A)
    (handler : exn -> M A) : M A := fun w =>
  match body w with
  | (Raised e, w1) => if catches e then handler e w1 else (Raised e, w1)
  | r => r
  end.

(** [try: body / finally: fin]: [fin] runs on return and on raise; an
    exception of [fin] replaces the pending one. *)
Definition try_finally {A} (body : M A) (fin : M unit) : M A := fun w =>
  match body w with
  | (Returned a, w1) =>
      match fin w1 with
      | (Returned _, w2) => (Returned a, w2)
      | (Raised e, w2) => (Raised e, w2)
      | (Running, w2) => (Running, w2)
      end
  | (Raised e, w1) =>
      match fin w1 with
      | (Returned _, w2) => (Raised e, w2)
      | (Raised e', w2) => (Raised e', w2)
      | (Running, w2) => (Running, w2)
      end
  | (Running, w1) => (Running, w1)
  end.

(** ** random, time.sleep, print *)

Definition next_draw : M Z := fun w =>
  (Returned (rng w (cursor w)), set_cursor (S (cursor w)) w).

(** [random.randint(a, b)]: an integer N with a <= N <= b. *)
Definition random_randint (a b : Z) : M Z :=
  r ← next_draw; ret (a + r mod (b - a + 1)).

(** [random.choice(seq)]: an element of [seq]; IndexError when empty. *)
Definition random_choice {A} (seq : list A) : M A :=
  r ← next_draw;
  match seq !! Z.to_nat (r mod Z.of_nat (length seq)) with
  | Some x => ret x
  | None => raise (mkExn IndexErrorCls "Cannot choose from an empty sequence")
  end.

(** [random.random()]: the float k / 2^53 for an integer 0 <= k < 2^53;
    the model returns k. *)
Definition random_random : M Z :=
  r ← next_draw; ret (r mod 2 ^ 53).

(** [random.uniform(a, b)]. *)
Definition random_uniform (a b : Q) : M Duration :=
  r ← next_draw; ret (mkDuration a b (r mod 2 ^ 53)).

(** [x < 0.1] for a float x = k / 2^53.  The literal 0.1 is the double
    3602879701896397 / 2^55, so the comparison of the two doubles is the
    exact comparison 4 * k < 3602879701896397. *)
Definition lt_0_1 (k : Z) : bool := 4 * k <? 3602879701896397.

(** [time.sleep(d)]: the pending Ctrl+C, when it is due, interrupts the
    sleep, which raises KeyboardInterrupt.  One Ctrl+C is pending at most,
    and this is where it is delivered; its arrival at a banner print or at
    the call of [force_flush] is the matter of [main_sigint] below. *)
Definition time_sleep (d : Duration) : M unit := fun w =>
  match sigint w with
  | Some O => (Raised (mkExn KeyboardInterruptCls ""), set_sigint None w)
  | Some (S k) =>
      (Returned tt, set_out (out w ++ [Sleep d]) (set_sigint (Some k) w))
  | None => (Returned tt, set_out (out w ++ [Sleep d]) w)
  end.

Definition print (line : string) : M unit := fun w =>
  (Returned tt, set_out (out w ++ [Print line]) w).

(** ** The tracer (opentelemetry.trace / opentelemetry.sdk.trace)

    The script never threads spans explicitly: a span handle is the value
    bound by [with ... as span], here the span's [SpanContext]; the span
    object itself lives in [spans] under its span id. *)

(** [Tracer.start_span]: the parent is the current span of the context; a
    span without a parent starts a new trace.  The default sampler records
    every span. *)
Definition start_span (name : string) : M SpanContext := fun w =>
  let sid := next_id w in
  let parent := head (ctx w) in
  let tid := match parent with Some p => trace_id p | None => sid end in
  let sc := mkSpanContext tid sid in
  let s := mkSpan name sc parent ∅ [] (mkStatus UNSET None) false in
  (Returned sc, set_spans (<[sid := s]> (spans w)) (set_next_id (S sid) w)).

(** A mutation through a handle; on an ended span the SDK logs a warning and
    changes nothing. *)
Definition update_span (span : SpanContext) (f : Span -> Span) : M unit :=
  fun w =>
  match spans w !! span_id span with
  | Some s =>
      if sp_ended s then (Returned tt, w)
      else (Returned tt, set_spans (<[span_id span := f s]> (spans w)) w)
  | None => (Returned tt, w)
  end.

(** [Span.set_attribute(key, value)]. *)
Definition set_attribute (span : SpanContext) (key : string) (value : AttrValue)
    : M unit :=
  update_span span
    (fun s => span_set_attributes (<[key := value]> (sp_attributes s)) s).

(** [Span.add_event(name, attributes)]. *)
Definition add_event (span : SpanContext) (name : string)
    (attributes : gmap string AttrValue) : M unit :=
  update_span span
    (fun s => span_set_events (sp_events s ++ [mkEvent name attributes]) s).

(** [Span.set_status(status)]: a status that is already OK is final. *)
Definition set_status (span : SpanContext) (st : Status) : M unit :=
  update_span span
    (fun s => match status_code (sp_status s) with
              | OK => s
              | _ => span_set_status st s
              end).

(** [Span.record_exception(exc)]: an event named "exception" (the
    "exception.stacktrace" attribute, the text of the traceback, is left
    out). *)
Definition record_exception (span : SpanContext) (exc : exn) : M unit :=
  add_event span "exception"
    (<["exception.type" := VStr (class_name (exc_class exc))]>
     (<["exception.message" := VStr (exc_msg exc)]>
      (<["exception.escaped" := VStr "False"]> ∅))).

(** [Span.end()]: the first call marks the span ended and hands it to the
    span processor ([BatchSpanProcessor.on_end] appends it to the queue). *)
Definition end_span (span : SpanContext) : M unit := fun w =>
  match spans w !! span_id span with
  | Some s =>
      if sp_ended s then (Returned tt, w)
      else
        let s' := span_set_ended s in
        (Returned tt,
         set_queue (queue w ++ [s'])
                   (set_spans (<[span_id span := s']> (spans w)) w))
  | None => (Returned tt, w)
  end.

(** [context.attach]: makes [span] the current span; the token is the
    context that was current before. *)
Definition attach (span : SpanContext) : M (list SpanContext) := fun w =>
  (Returned (ctx w), set_ctx (span :: ctx w) w).

(** [context.detach(token)]: restores the context of the token. *)
Definition detach (token : list SpanContext) : M unit := fun w =>
  (Returned tt, set_ctx token w).

(** [trace.use_span(span, end_on_exit=True, record_exception=True,
    set_status_on_exception=True)]:
<<
    try:
        token = context_api.attach(context_api.set_value(_SPAN_KEY, span))
        try:
            yield span
        finally:
            context_api.detach(token)
    except Exception as exc:
        if isinstance(span, Span) and span.is_recording():
            if record_exception: span.record_exception(exc)
            if set_status_on_exception:
                span.set_status(Status(StatusCode.ERROR,
                                       f"{type(exc).__name__}: {exc}"))
        raise
    finally:
        if end_on_exit: span.end()
>> *)
Definition use_span {A} (span : SpanContext) (body : SpanContext -> M A)
    : M A :=
  try_finally
    (try_except is_Exception
       (token ← attach span;
        try_finally (body span) (detach token))
       (fun exc =>
          record_exception span exc;;
          set_status span
            (mkStatus ERROR
               (Some (class_name (exc_class exc) ++ ": " ++ exc_msg exc)));;
          raise exc))
    (end_span span).

(** [with tracer.start_as_current_span(name) as span: body]. *)
Definition start_as_current_span {A} (name : string)
    (body : SpanContext -> M A) : M A :=
  span ← start_span name;
  use_span span body.

(** [BatchSpanProcessor.force_flush(timeout_millis)]: everything queued is
    handed to the exporter. *)
Definition force_flush (timeout_millis : Z) : M bool := fun w =>
  (Returned true,
   set_out (out w ++ [ForceFlush timeout_millis])
           (set_exported (exported w ++ queue w) (set_queue [] w))).

(** [TracerProvider.force_flush(timeout_millis: int = 30000)]. *)
Definition provider_force_flush (timeout_millis : option Z) : M bool :=
  force_flush (default 30000 timeout_millis).

(** ** String formatting *)

(** [str(n)] for an int n >= 0. *)
Definition str_int (n : N) : string := NilEmpty.string_of_uint (N.to_uint n).

(** [f"{n:05d}"] for n >= 0: zeros on the left up to width 5. *)
Definition format_05d (n : N) : string :=
  let s := str_int n in
  Nat.iter (5 - String.length s) (String "0"%char) s.

Definition LF : string := String "010"%char "".

(** ** examples/test-app.py *)

Definition process_payment_body (order_id : string) (span : SpanContext)
    : M unit :=
  set_attribute span "order.id" (VStr order_id);;
  method ← random_choice ["credit_card"; "paypal"; "bank_transfer"];
  set_attribute span "payment.method" (VStr method);;
  d ← random_uniform (2 # 10) (5 # 10);
  time_sleep d;;
  x ← random_random;
  (if lt_0_1 x then
     set_attribute span "error" (VBool true);;
     add_event span "Payment failed"
       (<["reason" := VStr "insufficient_funds"]> ∅);;
     raise (mkExn ExceptionCls "Payment failed: insufficient funds")
   else ret tt);;
  add_event span "Payment processed successfully" ∅.

Definition validate_order (order_id : string) : M unit :=
  start_as_current_span "validate_order" (fun span =>
    set_attribute span "order.id" (VStr order_id);;
    d ← random_uniform (1 # 10) (3 # 10);
    time_sleep d;;
    add_event span "Order validated" ∅).

Definition process_payment (order_id : string) : M unit :=
  start_as_current_span "process_payment" (process_payment_body order_id).

Definition schedule_shipment (order_id : string) : M unit :=
  start_as_current_span "schedule_shipment" (fun span =>
    set_attribute span "order.id" (VStr order_id);;
    carrier ← random_choice ["USPS"; "FedEx"; "UPS"];
    set_attribute span "carrier" (VStr carrier);;
    d ← random_uniform (1 # 10) (2 # 10);
    time_sleep d;;
    add_event span "Shipment scheduled" ∅).

Definition process_order (order_id : string) : M unit :=
  start_as_current_span "process_order" (fun span =>
    set_attribute span "order.id" (VStr order_id);;
    v ← random_randint 10 1000;
    set_attribute span "order.value" (VInt v);;
    validate_order order_id;;
    process_payment order_id;;
    schedule_shipment order_id;;
    print ("Order " ++ order_id ++ " processed successfully")).

(** One iteration of the [while True] loop; returns the new value of
    [order_counter]. *)
Definition loop_iteration (order_counter : N) : M N :=
  try_except is_Exception
    (process_order ("ORD-" ++ format_05d order_counter))
    (fun e =>
       print ("Error processing order " ++ str_int order_counter ++ ": "
              ++ exc_msg e));;
  let order_counter := (order_counter + 1)%N in
  d ← random_uniform 1 3;
  time_sleep d;;
  ret order_counter.

(** [while True: ...]: [fuel] bounds the number of iterations run. *)
Fixpoint while_true (fuel : nat) (order_counter : N) : M unit :=
  match fuel with
  | O => running
  | S fuel' =>
      order_counter' ← loop_iteration order_counter;
      while_true fuel' order_counter'
  end.

Definition main (fuel : nat) : M unit :=
  print "Starting test application...";;
  print "Sending traces to http://localhost:4320";;
  print ("Press Ctrl+C to stop" ++ LF);;
  let order_counter := 1%N in
  try_except is_KeyboardInterrupt
    (while_true fuel order_counter)
    (fun _ =>
       print (LF ++ LF ++ "Stopping test application...");;
       print "Flushing remaining traces...";;
       provider_force_flush None;;
       print "Done!").

(** The module-level code (lines 17-34) builds the provider, the exporter
    and the processor: no span exists, none is current, nothing is queued.
    [rng] and [sigint] are the environment's. *)
Definition initial_world (rng : nat -> Z) (sigint : option nat) : World :=
  mkWorld rng 0 sigint [] 0 ∅ [] [] [].



(** * Closed form of one [process_order] call

    What a call does is fixed by the world it starts in: by where the
    pending Ctrl+C falls among its sleeps and by the draw that
    [process_payment] compares with 0.1. *)

(** [random.choice(seq)] for the draw [r]; [d] is only a default. *)
Definition chosen {A} (d : A) (seq : list A) (r : Z) : A :=
  nth (Z.to_nat (r mod Z.of_nat (length seq))) seq d.

(** The draws of a [process_order] call that starts in [w], by position:
    randint, uniform (validate), choice, uniform, random (payment), choice,
    uniform (shipment). *)
Definition order_value (w : World) : Z :=
  10 + rng w (cursor w) mod (1000 - 10 + 1).
Definition validate_sleep (w : World) : Duration :=
  mkDuration (1 # 10) (3 # 10) (rng w (1 + cursor w)%nat mod 2 ^ 53).
Definition payment_method (w : World) : string :=
  chosen "credit_card" ["credit_card"; "paypal"; "bank_transfer"]
         (rng w (2 + cursor w)%nat).
Definition payment_sleep (w : World) : Duration :=
  mkDuration (2 # 10) (5 # 10) (rng w (3 + cursor w)%nat mod 2 ^ 53).
Definition payment_draw (w : World) : Z :=
  rng w (4 + cursor w)%nat mod 2 ^ 53.
Definition carrier (w : World) : string :=
  chosen "USPS" ["USPS"; "FedEx"; "UPS"] (rng w (5 + cursor w)%nat).
Definition shipment_sleep (w : World) : Duration :=
  mkDuration (1 # 10) (2 # 10) (rng w (6 + cursor w)%nat mod 2 ^ 53).

(** The ways a call can go. *)
Inductive Path :=
| Completed
| PaymentFailed
| StoppedInValidate
| StoppedInPayment
| StoppedInShipment.

Definition path_of (w : World) : Path :=
  match sigint w with
  | Some 0%nat => StoppedInValidate
  | Some 1%nat => StoppedInPayment
  | sg =>
      if lt_0_1 (payment_draw w) then PaymentFailed
      else match sg with
           | Some 2%nat => StoppedInShipment
           | _ => Completed
           end
  end.

Definition payment_failure : exn :=
  mkExn ExceptionCls "Payment failed: insufficient funds".
Definition keyboard_interrupt : exn := mkExn KeyboardInterruptCls "".

Definition outcome_of (p : Path) : Outcome unit :=
  match p with
  | Completed => Returned tt
  | PaymentFailed => Raised payment_failure
  | _ => Raised keyboard_interrupt
  end.

Definition draws_of (p : Path) : nat :=
  match p with
  | StoppedInValidate => 2
  | StoppedInPayment => 4
  | PaymentFailed => 5
  | StoppedInShipment | Completed => 7
  end.

Definition sigint_of (p : Path) (w : World) : option nat :=
  match p with
  | Completed => (fun k => k - 3)%nat <$> sigint w
  | PaymentFailed => (fun k => k - 2)%nat <$> sigint w
  | _ => None
  end.

Definition effects_of (p : Path) (w : World) (order_id : string)
    : list Effect :=
  match p with
  | StoppedInValidate => []
  | StoppedInPayment => [Sleep (validate_sleep w)]
  | PaymentFailed | StoppedInShipment =>
      [Sleep (validate_sleep w); Sleep (payment_sleep w)]
  | Completed =>
      [Sleep (validate_sleep w); Sleep (payment_sleep w);
       Sleep (shipment_sleep w);
       Print ("Order " ++ order_id ++ " processed successfully")]
  end.

(** The context of the span that [start_span] creates first in [w]. *)
Definition new_context (w : World) : SpanContext :=
  mkSpanContext
    (match head (ctx w) with Some p => trace_id p | None => next_id w end)
    (next_id w).

Definition unset : Status := mkStatus UNSET None.

Definition exception_event (e : exn) : Event :=
  mkEvent "exception"
    (<["exception.type" := VStr (class_name (exc_class e))]>
     (<["exception.message" := VStr (exc_msg e)]>
      (<["exception.escaped" := VStr "False"]> ∅))).

Definition error_status (e : exn) : Status :=
  mkStatus ERROR (Some (class_name (exc_class e) ++ ": " ++ exc_msg e)).

Section OrderSpans.
Variables (w : World) (order_id : string).

Let root : SpanContext := new_context w.
Let child (k : nat) : SpanContext :=
  mkSpanContext (trace_id root) (k + next_id w).
Let id_attr : gmap string AttrValue := <["order.id" := VStr order_id]> ∅.

Definition validate_span (validated : bool) : Span :=
  mkSpan "validate_order" (child 1) (Some root) id_attr
    (if validated then [mkEvent "Order validated" ∅] else [])
    unset true.

Definition payment_attrs : gmap string AttrValue :=
  <["payment.method" := VStr (payment_method w)]> id_attr.

Definition payment_span_stopped : Span :=
  mkSpan "process_payment" (child 2) (Some root) payment_attrs [] unset true.

Definition payment_span_ok : Span :=
  mkSpan "process_payment" (child 2) (Some root) payment_attrs
    [mkEvent "Payment processed successfully" ∅] unset true.

Definition payment_span_failed : Span :=
  mkSpan "process_payment" (child 2) (Some root)
    (<["error" := VBool true]> payment_attrs)
    [mkEvent "Payment failed" (<["reason" := VStr "insufficient_funds"]> ∅);
     exception_event payment_failure]
    (error_status payment_failure) true.

Definition shipment_span (scheduled : bool) : Span :=
  mkSpan "schedule_shipment" (child 3) (Some root)
    (<["carrier" := VStr (carrier w)]> id_attr)
    (if scheduled then [mkEvent "Shipment scheduled" ∅] else [])
    unset true.

Definition root_attrs : gmap string AttrValue :=
  <["order.value" := VInt (order_value w)]> id_attr.

Definition root_span : Span :=
  mkSpan "process_order" root (head (ctx w)) root_attrs [] unset true.

Definition root_span_failed : Span :=
  mkSpan "process_order" root (head (ctx w)) root_attrs
    [exception_event payment_failure] (error_status payment_failure) true.

(** The spans a call ends, in the order it ends them. *)
Definition spans_of (p : Path) : list Span :=
  match p with
  | StoppedInValidate => [validate_span false; root_span]
  | StoppedInPayment => [validate_span true; payment_span_stopped; root_span]
  | PaymentFailed =>
      [validate_span true; payment_span_failed; root_span_failed]
  | StoppedInShipment =>
      [validate_span true; payment_span_ok; shipment_span false; root_span]
  | Completed =>
      [validate_span true; payment_span_ok; shipment_span true; root_span]
  end.
End OrderSpans.

(** The span objects after [new] has been stored. *)
Definition store_spans (new : list Span) (h : gmap nat Span) : gmap nat Span :=
  foldr (fun s h => <[span_id (sp_context s) := s]> h) h new.

(** The world after [process_order order_id] has run in [w]. *)
Definition after_order (w : World) (order_id : string) : World :=
  let p := path_of w in
  let new := spans_of w order_id p in
  mkWorld (rng w) (draws_of p + cursor w) (sigint_of p w) (ctx w)
          (length new + next_id w) (store_spans new (spans w))
          (queue w ++ new) (exported w)
          (out w ++ effects_of p w order_id).

(** * Vocabulary of the properties *)

(** [f"ORD-{order_counter:05d}"], the argument of [process_order] in
    [main]. *)
Definition order_id (order_counter : N) : string :=
  "ORD-" ++ format_05d order_counter.

(** The values of [order_counter] in [k] successive iterations. *)
Definition counters (first : N) (k : nat) : list N :=
  map (fun i => (first + N.of_nat i)%N) (seq 0 k).

(** The "order.id" attributes of the root spans among [l], in order. *)
Definition is_root_span (s : Span) : bool :=
  String.eqb (sp_name s) "process_order".
Definition root_order_ids (l : list Span) : list (option AttrValue) :=
  map (fun s => sp_attributes s !! "order.id") (List.filter is_root_span l).

(** At least [j] more calls of [time.sleep] complete before Ctrl+C. *)
Definition sleeps_before_sigint (j : nat) (w : World) : Prop :=
  match sigint w with
  | Some k => (j <= k)%nat
  | None => True
  end.

Global Instance SpanContext_eq_dec : EqDecision SpanContext.
Proof. solve_decision. Defined.

(** [s] descends from the span [anc] along the parent links of the spans of
    [l]; [fuel] bounds the length of the chain. *)
Fixpoint descends (fuel : nat) (l : list Span) (anc : SpanContext) (s : Span)
    : bool :=
  match fuel with
  | O => false
  | S fuel' =>
      match sp_parent s with
      | None => false
      | Some p =>
          bool_decide (p = anc)
          || existsb (fun t => bool_decide (sp_context t = p)
                               && descends fuel' l anc t) l
      end
  end.

Definition descendant_count (l : list Span) (r : Span) : nat :=
  length (List.filter (descends (length l) l (sp_context r)) l).

Definition has_event (name : string) (s : Span) : Prop :=
  exists ev, ev ∈ sp_events s /\ ev_name ev = name.

(** * Startup configuration (lines 17-34 and the call of [force_flush])

    The script reads neither [sys.argv] nor [os.environ]; the SDK classes it
    instantiates read the environment for the arguments they are not
    given. *)

Record Startup := mkStartup {
  argv : list string;
  environ : string -> option string
}.

(** [int(s)] on the value of an environment variable, for plain decimal
    numerals, with or without a minus sign; [None] is ValueError.  The other
    spellings [int] accepts (surrounding blanks, a plus sign, underscores)
    are read as ValueError here. *)
Definition int_of_env (s : string) : option Z :=
  Z.of_int <$> NilZero.int_of_string s.

(** [int(environ.get(name, default))], with the default on ValueError
    (BatchSpanProcessor._default_max_queue_size and its siblings). *)
Definition env_int (env : string -> option string) (name : string)
    (dflt : Z) : Z :=
  match env name with
  | Some s => default dflt (int_of_env s)
  | None => dflt
  end.

Record ProcessorSettings := mkProcessorSettings {
  max_queue_size : Z;
  schedule_delay_millis : Z;
  max_export_batch_size : Z;
  export_timeout_millis : Z
}.

(** [BatchSpanProcessor(span_exporter, max_queue_size=None,
    schedule_delay_millis=None, max_export_batch_size=None,
    export_timeout_millis=None)]: an argument that is None is read from the
    environment (the OTEL_BSP variables), else takes the SDK default; [None] is the
    ValueError of [_validate_arguments]. *)
Definition BatchSpanProcessor (env : string -> option string)
    (queue_size delay batch_size timeout : option Z)
    : option ProcessorSettings :=
  let q := default (env_int env "OTEL_BSP_MAX_QUEUE_SIZE" 2048) queue_size in
  let d := default (env_int env "OTEL_BSP_SCHEDULE_DELAY" 5000) delay in
  let b := default (env_int env "OTEL_BSP_MAX_EXPORT_BATCH_SIZE" 512)
                   batch_size in
  let t := default (env_int env "OTEL_BSP_EXPORT_TIMEOUT" 30000) timeout in
  if (q <=? 0) || (d <=? 0) || (b <=? 0) || (q <? b) then None
  else Some (mkProcessorSettings q d b t).

Definition ends_with_slash (s : string) : bool :=
  match String.length s with
  | O => false
  | S k => String.eqb (String.substring k 1 s) "/"
  end.

(** [OTLPSpanExporter(endpoint=...)]:
    [endpoint or environ.get(OTEL_EXPORTER_OTLP_TRACES_ENDPOINT,
       _append_trace_path(environ.get(OTEL_EXPORTER_OTLP_ENDPOINT,
                                      "http://localhost:4318/")))]. *)
Definition OTLPSpanExporter (env : string -> option string)
    (endpoint_arg : option string) : string :=
  let from_env :=
    match env "OTEL_EXPORTER_OTLP_TRACES_ENDPOINT" with
    | Some e => e
    | None =>
        let base :=
          default "http://localhost:4318/" (env "OTEL_EXPORTER_OTLP_ENDPOINT")
        in
        if ends_with_slash base then base ++ "v1/traces"
        else base ++ "/v1/traces"
    end in
  match endpoint_arg with
  | Some e => if String.eqb e "" then from_env else e
  | None => from_env
  end.

Record Configuration := mkConfiguration {
  endpoint : string;
  batch_size_threshold : Z;
  flush_interval_millis : Z;
  shutdown_flush_deadline_millis : Z
}.

(** What the script runs with when started with [s]: the exporter is given
    its endpoint, the processor nothing but the exporter, and
    [provider.force_flush()] no deadline.  [None]: the module-level code
    raises ValueError. *)
Definition configuration (s : Startup) : option Configuration :=
  let otlp_endpoint :=
    OTLPSpanExporter (environ s) (Some "http://localhost:4320/v1/traces") in
  match BatchSpanProcessor (environ s) None None None None with
  | Some p =>
      Some (mkConfiguration otlp_endpoint (max_export_batch_size p)
                            (schedule_delay_millis p) (default 30000 None))
  | None => None
  end.

(** A setting is overridable at startup when two startups that both start
    the script give it different values. *)
Definition overridable {A} (setting : Configuration -> A) : Prop :=
  exists s1 s2 c1 c2,
    configuration s1 = Some c1 /\ configuration s2 = Some c2 /\
    setting c1 <> setting c2.

Definition no_environ : string -> option string := fun _ => None.

(** The "order.id" attributes expected for the counters [l]. *)
Definition ids_of (l : list N) : list (option AttrValue) :=
  map (fun c => Some (VStr (order_id c))) l.

(** What the handler of KeyboardInterrupt in [main] prints and does. *)
Definition stop_log : list Effect :=
  [Print (LF ++ LF ++ "Stopping test application...");
   Print "Flushing remaining traces...";
   ForceFlush 30000;
   Print "Done!"].

(** The values the script draws for the attributes of a span, by the name
    of the span, and the reason of a "Payment failed" event. *)
Definition attributes_in_range (s : Span) : Prop :=
  (sp_name s = "process_order" ->
     exists v, sp_attributes s !! "order.value" = Some (VInt v) /\
               10 <= v <= 1000) /\
  (sp_name s = "process_payment" ->
     exists m, sp_attributes s !! "payment.method" = Some (VStr m) /\
               m ∈ ["credit_card"; "paypal"; "bank_transfer"]) /\
  (sp_name s = "schedule_shipment" ->
     exists m, sp_attributes s !! "carrier" = Some (VStr m) /\
               m ∈ ["USPS"; "FedEx"; "UPS"]) /\
  (forall ev, ev ∈ sp_events s -> ev_name ev = "Payment failed" ->
     ev_attributes ev !! "reason" = Some (VStr "insufficient_funds")).

(** A stream of draws: [payment] where a call of [process_order] that
    starts at position 0 draws for [random.random()], [other] elsewhere. *)
Definition draws (payment other : Z) : nat -> Z :=
  fun i => if (i =? 4)%nat then payment else other.

(** An environment with one variable set. *)
Definition environ_with (name value : string) : string -> option string :=
  fun n => if String.eqb n name then Some value else None.



(** The line [process_order] prints last, and the line [main] prints for a
    failed payment. *)
Definition success_line (order_id : string) : Effect :=
  Print ("Order " ++ order_id ++ " processed successfully").

(** A span is a root span exactly when it has no parent. *)
Definition root_iff_no_parent (s : Span) : Prop :=
  is_root_span s = true <-> sp_parent s = None.

(** * Ctrl+C outside the sleeps

    [time_sleep] delivers the pending Ctrl+C inside a sleep, where the
    script spends its time.  The signal can also arrive while [main]
    executes another statement; two such windows are not protected: the
    banner prints, which precede the try block, and the call of
    [force_flush], which is inside the handler. *)







(** * Running the model symbolically *)

Lemma chosen_elem {A} (x0 : A) (xs : list A) (r : Z) :
  chosen x0 (x0 :: xs) r ∈ x0 :: xs.
Proof.
  unfold chosen. apply list_elem_of_In, nth_In.
  pose proof (Z.mod_pos_bound r (Z.of_nat (length (x0 :: xs)))) as H.
  simpl length in *. lia.
Qed.

(** On a non-empty sequence [random.choice] raises nothing. *)
Lemma random_choice_run {A} (x0 : A) (xs : list A) (w : World) :
  random_choice (x0 :: xs) w =
  (Returned (chosen x0 (x0 :: xs) (rng w (cursor w))),
   set_cursor (S (cursor w)) w).
Proof.
  unfold random_choice, bind, next_draw, chosen.
  set (i := Z.to_nat _).
  assert (Hi : (i < length (x0 :: xs))%nat).
  { subst i.
    pose proof (Z.mod_pos_bound (rng w (cursor w))
                  (Z.of_nat (length (x0 :: xs)))) as H.
    simpl length in *. lia. }
  destruct (lookup_lt_is_Some_2 _ _ Hi) as [x Hx].
  rewrite Hx. unfold ret. do 2 f_equal.
  symmetry. apply nth_lookup_Some with (d := x0) in Hx. exact Hx.
Qed.

Lemma world_eq r c sg cx n h q ex o c' sg' n' h' q' o' :
  c = c' -> sg = sg' -> n = n' -> h = h' -> q = q' -> o = o' ->
  mkWorld r c sg cx n h q ex o = mkWorld r c' sg' cx n' h' q' ex o'.
Proof. congruence. Qed.

(** One pass of evaluation of the monadic code; map operations, list
    appends and arithmetic are left alone. *)
Ltac step :=
  cbv beta iota zeta delta
      [bind ret raise running try_except try_finally
       next_draw random_randint random_random random_uniform time_sleep print
       start_span update_span set_attribute add_event set_status
       record_exception end_span attach detach use_span
       start_as_current_span force_flush provider_force_flush
       process_payment_body validate_order process_payment schedule_shipment
       process_order
       rng cursor sigint ctx next_id spans queue exported out
       set_cursor set_sigint set_ctx set_next_id set_spans set_queue
       set_exported set_out
       sp_name sp_context sp_parent sp_attributes sp_events sp_status sp_ended
       span_set_attributes span_set_events span_set_status span_set_ended
       trace_id span_id status_code description
       is_Exception is_KeyboardInterrupt exc_class exc_msg
       fst snd head hd_error default].

(** Reads of the span store. *)
Ltac look :=
  first [ rewrite lookup_insert_eq
        | rewrite lookup_insert_ne by lia
        | rewrite insert_insert_eq ].

Ltac branch :=
  match goal with
  | H : lt_0_1 _ = _ |- _ => rewrite H
  end.

Ltac run := repeat (progress step || look || rewrite random_choice_run || branch).

Ltac heap_eq :=
  let i := fresh "i" in
  apply map_eq; intros i;
  cbv [store_spans foldr spans_of validate_span payment_span_stopped
       payment_span_ok payment_span_failed shipment_span root_span
       root_span_failed sp_context span_id new_context next_id];
  rewrite !lookup_insert; repeat case_decide; solve [reflexivity | lia].

(** The embedding of [process_order] and its closed form agree, on every
    world. *)
Lemma process_order_run (w : World) (oid : string) :
  process_order oid w = (outcome_of (path_of w), after_order w oid).
Proof.
  destruct w as [rg c sg cx n h q ex o].
  unfold after_order, path_of, payment_draw. cbn [sigint rng cursor Nat.add].
  destruct sg as [[|[|[|k]]]|];
    try (destruct (lt_0_1 (rg (S (S (S (S c)))) mod 2 ^ 53)) eqn:Hp);
    cbn [outcome_of];
    (run; f_equal; apply world_eq;
     [ reflexivity
     | cbn; f_equal; lia
     | reflexivity
     | heap_eq
     | rewrite <- ?app_assoc; reflexivity
     | cbn [effects_of]; rewrite ?app_nil_r, <- ?app_assoc; reflexivity ]).
Qed.

(** * Which path a call takes *)

Lemma path_payment_failed (w : World) :
  sleeps_before_sigint 2 w -> lt_0_1 (payment_draw w) = true ->
  path_of w = PaymentFailed.
Proof.
  unfold sleeps_before_sigint, path_of. intros Hs ->.
  destruct (sigint w) as [[|[|k]]|]; solve [reflexivity | lia].
Qed.

Lemma path_completed (w : World) :
  sleeps_before_sigint 3 w -> lt_0_1 (payment_draw w) = false ->
  path_of w = Completed.
Proof.
  unfold sleeps_before_sigint, path_of. intros Hs ->.
  destruct (sigint w) as [[|[|[|k]]]|]; solve [reflexivity | lia].
Qed.

Lemma lookup_store_spans (new : list Span) (h : gmap nat Span) (i : nat) (s : Span) :
  store_spans new h !! i = Some s -> s ∈ new \/ h !! i = Some s.
Proof.
  induction new as [|t new IH]; cbn [store_spans foldr]; [auto|].
  rewrite lookup_insert. case_decide.
  - intros [= <-]. left. apply list_elem_of_here.
  - intros H'. destruct (IH H') as [?|?]; [left; by apply list_elem_of_further | by right].
Qed.


(** * The with-scope restores the context, whatever its body does *)

Lemma update_span_ctx span f w :
  exists w', update_span span f w = (Returned tt, w') /\ ctx w' = ctx w.
Proof.
  unfold update_span. destruct (spans w !! span_id span) as [s|]; [|eauto].
  destruct (sp_ended s); eauto.
Qed.

Lemma end_span_ctx span w :
  exists w', end_span span w = (Returned tt, w') /\ ctx w' = ctx w.
Proof.
  unfold end_span. destruct (spans w !! span_id span) as [s|]; [|eauto].
  destruct (sp_ended s); eauto.
Qed.

Lemma use_span_restores_context {A} (span : SpanContext)
    (body : SpanContext -> M A) (w : World) :
  fst (body span (set_ctx (span :: ctx w) w)) <> Running ->
  ctx (snd (use_span span body w)) = ctx w.
Proof.
  intros Hrun. unfold use_span, try_finally at 1, try_except, bind, attach.
  unfold try_finally, detach.
  destruct (body span (set_ctx (span :: ctx w) w)) as [[a|e|] w1];
    cbn [fst] in Hrun; [| |congruence].
  - destruct (end_span_ctx span (set_ctx (ctx w) w1)) as (w2 & -> & E).
    cbn [snd]. rewrite E. reflexivity.
  - destruct (is_Exception e).
    + unfold record_exception, add_event, set_status, raise.
      destruct (update_span_ctx span
        (fun s => span_set_events (sp_events s ++ [mkEvent "exception"
            (<["exception.type" := VStr (class_name (exc_class e))]>
             (<["exception.message" := VStr (exc_msg e)]>
             (<["exception.escaped" := VStr "False"]> ∅)))]) s) (set_ctx (ctx w) w1))
        as (w2 & -> & E2).
      match goal with |- context [update_span span ?f w2] =>
        destruct (update_span_ctx span f w2) as (w3 & -> & E3) end.
      destruct (end_span_ctx span w3) as (w4 & -> & E4).
      cbn [snd]. rewrite E4, E3, E2. reflexivity.
    + destruct (end_span_ctx span (set_ctx (ctx w) w1)) as (w2 & -> & E).
    cbn [snd]. rewrite E. reflexivity.
Qed.


(** * The driver loop *)

Lemma root_order_ids_app (a b : list Span) :
  root_order_ids (a ++ b) = (root_order_ids a ++ root_order_ids b)%list.
Proof. unfold root_order_ids. by rewrite List.filter_app, map_app. Qed.

Lemma root_order_ids_spans_of (w : World) (oid : string) (p : Path) :
  root_order_ids (spans_of w oid p) = [Some (VStr oid)].
Proof. destruct p; reflexivity. Qed.

Lemma loop_iteration_run (c : N) (w : World) :
  exists (o : Outcome N) (w' : World),
    loop_iteration c w = (o, w') /\
    rng w' = rng w /\ ctx w' = ctx w /\ exported w' = exported w /\
    queue w' = (queue w ++ spans_of w (order_id c) (path_of w))%list /\
    (exists log, out w' = (out w ++ log)%list) /\
    match sigint w with
    | None => o = Returned (c + 1)%N /\ sigint w' = None
    | Some k =>
        (o = Raised keyboard_interrupt /\ sigint w' = None) \/
        (o = Returned (c + 1)%N /\
         exists k', sigint w' = Some k' /\ (k' < k)%nat)
    end.
Proof.
  unfold loop_iteration, try_except at 1, bind at 1.
  fold (order_id c). rewrite process_order_run. unfold after_order.
  destruct w as [rg cu sg cx n h q ex o0].
  unfold path_of, payment_draw. cbn [sigint rng cursor Nat.add].
  destruct sg as [[|[|[|[|k]]]]|];
    try (destruct (lt_0_1 (rg (S (S (S (S cu)))) mod 2 ^ 53)) eqn:Hp);
    cbn [outcome_of sigint_of fmap option_fmap option_map spans_of effects_of draws_of Nat.sub];
    run;
    (eexists _, _; split; [reflexivity|];
     cbn [rng ctx exported queue out sigint];
     do 4 (split; [reflexivity|]);
     split; [rewrite <- ?app_assoc; eexists; reflexivity
            | first [ split; reflexivity
                    | left; split; reflexivity
                    | right; split; [reflexivity|]; eexists; split; [reflexivity|lia] ] ]).
Qed.

Lemma counters_S (c : N) (n : nat) :
  counters c (S n) = c :: counters (c + 1) n.
Proof.
  unfold counters. cbn [seq map]. f_equal; [lia|].
  rewrite <- seq_shift, map_map. apply map_ext. intros i. lia.
Qed.

Lemma ids_of_counters (c : N) (n : nat) :
  ids_of (counters c n) =
  map (fun i => Some (VStr (order_id (c + N.of_nat i)))) (seq 0 n).
Proof. unfold ids_of, counters. by rewrite map_map. Qed.

Lemma while_true_run (fuel : nat) : forall (c : N) (w : World),
  exists (o : Outcome unit) (w' : World) (n : nat) (new : list Span),
    while_true fuel c w = (o, w') /\
    (o = Running \/ o = Raised keyboard_interrupt) /\
    ctx w' = ctx w /\ exported w' = exported w /\
    queue w' = (queue w ++ new)%list /\
    root_order_ids new = ids_of (counters c n) /\
    (exists log, out w' = (out w ++ log)%list) /\
    (sigint w = None -> o = Running /\ n = fuel) /\
    (forall k, sigint w = Some k -> (k < fuel)%nat ->
               o = Raised keyboard_interrupt).
Proof.
  induction fuel as [|fuel IH]; intros c w.
  - exists Running, w, 0%nat, []. cbn [while_true]. unfold running.
    split; [reflexivity|]. split; [by left|]. do 2 (split; [reflexivity|]).
    split; [by rewrite app_nil_r|]. split; [reflexivity|].
    split; [exists []; by rewrite app_nil_r|]. split; [done|]. intros; lia.
  - cbn [while_true]. unfold bind.
    destruct (loop_iteration_run c w)
      as (o1 & w1 & E & Hr & Hc & He & Hq & [log1 Ho] & Hs).
    rewrite E.
    assert (Hcase : (o1 = Raised keyboard_interrupt /\ exists k, sigint w = Some k) \/
                    (o1 = Returned (c + 1)%N /\
                     match sigint w with
                     | None => sigint w1 = None
                     | Some k => exists k', sigint w1 = Some k' /\ (k' < k)%nat
                     end)).
    { destruct (sigint w) as [k|].
      - destruct Hs as [[-> _]|[-> Hk]]; [left; eauto | right; eauto].
      - destruct Hs as [-> Hn]. right. eauto. }
    destruct Hcase as [[-> [k Hk]]|[-> Hs1]].
    + exists (Raised keyboard_interrupt), w1, 1%nat, (spans_of w (order_id c) (path_of w)).
      split; [reflexivity|]. split; [by right|]. do 3 (split; [assumption|]).
      split; [rewrite root_order_ids_spans_of, counters_S; reflexivity|].
      split; [eauto|]. split; [congruence|]. reflexivity.
    + destruct (IH (c + 1)%N w1)
        as (o & w' & n & new & E' & Ho' & Hc' & He' & Hq' & Hids & [log2 Hout] & Hnone & Hsome).
      rewrite E'. exists o, w', (S n), (spans_of w (order_id c) (path_of w) ++ new)%list.
      split; [reflexivity|]. split; [assumption|].
      split; [congruence|]. split; [congruence|].
      split; [rewrite Hq', Hq, app_assoc; reflexivity|].
      split; [rewrite root_order_ids_app, root_order_ids_spans_of, counters_S, Hids; reflexivity|].
      split; [exists (log1 ++ log2)%list; rewrite Hout, Ho, app_assoc; reflexivity|].
      split.
      * intros Hn. rewrite Hn in Hs1. destruct (Hnone Hs1) as [-> ->]. done.
      * intros k Hk Hlt. rewrite Hk in Hs1. destruct Hs1 as (k' & Hk' & Hlt').
        apply (Hsome k' Hk'). lia.
Qed.

Lemma main_run (fuel : nat) (rg : nat -> Z) (sg : option nat) :
  exists (o : Outcome unit) (w' : World) (n : nat),
    main fuel (initial_world rg sg) = (o, w') /\
    ctx w' = [] /\
    root_order_ids (exported w' ++ queue w') = ids_of (counters 1 n) /\
    (sg = None -> o = Running /\ n = fuel) /\
    (forall k, sg = Some k -> (k < fuel)%nat ->
       o = Returned tt /\ queue w' = [] /\
       exists pre, out w' = (pre ++ stop_log)%list).
Proof.
  unfold main, print at 1 2 3, bind at 1 2 3, try_except.
  match goal with |- context [while_true fuel 1%N ?W] =>
    destruct (while_true_run fuel 1%N W)
      as (o & w1 & n & new & E & Ho & Hc & He & Hq & Hids & [log Hout] & Hnone & Hsome);
    rewrite E end.
  cbn [ctx exported queue out sigint set_out initial_world] in *.
  destruct Ho as [-> | ->].
  - exists Running, w1, n. split; [reflexivity|]. split; [assumption|].
    split; [rewrite He, Hq; exact Hids|]. split; [exact Hnone|].
    intros k Hk Hlt. specialize (Hsome k Hk Hlt). discriminate.
  - cbn [is_KeyboardInterrupt keyboard_interrupt exc_class].
    unfold bind, print, provider_force_flush, force_flush.
    eexists _, _, n. split; [reflexivity|].
    cbn [ctx exported queue out set_out set_exported set_queue default].
    split; [assumption|].
    split; [rewrite He, Hq, app_nil_r; exact Hids|].
    split; [intros Hn; destruct (Hnone Hn) as [? _]; discriminate|].
    intros k _ _. do 2 (split; [reflexivity|]).
    exists (out w1). unfold stop_log. rewrite <- !app_assoc. reflexivity.
Qed.


(** * Order ids *)

Lemma uint_of_string_zeros (k : nat) (s : string) :
  NilEmpty.uint_of_string (Nat.iter k (String "0"%char) s) =
  Nat.iter k Decimal.D0 <$> NilEmpty.uint_of_string s.
Proof.
  induction k as [|k IH].
  - change (Nat.iter 0 (String "0"%char) s) with s. destruct (NilEmpty.uint_of_string s); reflexivity.
  - change (Nat.iter (S k) (String "0"%char) s)
      with (String "0"%char (Nat.iter k (String "0"%char) s)).
    change (Nat.iter (S k) Decimal.D0) with
      (fun d => Decimal.D0 (Nat.iter k Decimal.D0 d)).
    cbn [NilEmpty.uint_of_string]. rewrite IH.
    destruct (NilEmpty.uint_of_string s); reflexivity.
Qed.

Lemma of_uint_zeros (k : nat) (d : Decimal.uint) :
  N.of_uint (Nat.iter k Decimal.D0 d) = N.of_uint d.
Proof. induction k as [|k IH]; [reflexivity|exact IH]. Qed.

Lemma format_05d_parse (n : N) :
  N.of_uint <$> NilEmpty.uint_of_string (format_05d n) = Some n.
Proof.
  unfold format_05d, str_int. rewrite uint_of_string_zeros, NilEmpty.usu.
  cbn [fmap option_fmap option_map]. by rewrite of_uint_zeros, DecimalN.Unsigned.of_to.
Qed.

Lemma order_id_inj (a b : N) : order_id a = order_id b -> a = b.
Proof.
  unfold order_id. intros H. cbn [String.append] in H. injection H as H.
  change (format_05d a = format_05d b) in H.
  pose proof (format_05d_parse a) as Ha. rewrite H, format_05d_parse in Ha. congruence.
Qed.

Lemma length_zeros (k : nat) (t : string) :
  String.length (Nat.iter k (String "0"%char) t) = (k + String.length t)%nat.
Proof.
  induction k as [|k IH]; [reflexivity|].
  change (Nat.iter (S k) (String "0"%char) t)
    with (String "0"%char (Nat.iter k (String "0"%char) t)).
  cbn [String.length]. rewrite IH. reflexivity.
Qed.

Lemma format_05d_width (n : N) : (5 <= String.length (format_05d n))%nat.
Proof. unfold format_05d. cbv zeta. rewrite length_zeros. lia. Qed.

Lemma format_05d_examples :
  format_05d 1 = "00001" /\ format_05d 42 = "00042" /\
  format_05d 99999 = "99999" /\ format_05d 123456 = "123456".
Proof. repeat split; reflexivity. Qed.


(** * Attribute values *)

Lemma order_value_range (w : World) : 10 <= order_value w <= 1000.
Proof.
  unfold order_value.
  pose proof (Z.mod_pos_bound (rng w (cursor w)) (1000 - 10 + 1)). lia.
Qed.

Ltac lookup_attr :=
  repeat (rewrite lookup_insert_ne by discriminate); apply lookup_insert_eq.

Lemma spans_of_in_range (w : World) (oid : string) (p : Path) :
  Forall attributes_in_range (spans_of w oid p).
Proof.
  assert (Hv := order_value_range w).
  assert (Hm : payment_method w ∈ ["credit_card"; "paypal"; "bank_transfer"])
    by apply chosen_elem.
  assert (Hc : carrier w ∈ ["USPS"; "FedEx"; "UPS"]) by apply chosen_elem.
  destruct p; cbn [spans_of]; repeat (apply List.Forall_cons); try apply List.Forall_nil;
    unfold attributes_in_range;
    cbv [validate_span payment_span_stopped payment_span_ok
         payment_span_failed shipment_span root_span root_span_failed
         root_attrs payment_attrs sp_name sp_attributes sp_events];
    (split; [intros Hn; first [discriminate Hn | eexists; split; [lookup_attr|assumption]]|]);
    (split; [intros Hn; first [discriminate Hn | eexists; split; [lookup_attr|assumption]]|]);
    (split; [intros Hn; first [discriminate Hn | eexists; split; [lookup_attr|assumption]]|]);
    intros ev Hev Hname;
    rewrite ?elem_of_cons, ?elem_of_nil in Hev;
    repeat (destruct Hev as [->|Hev]); try (exfalso; exact Hev);
    solve [discriminate Hname | apply lookup_insert_eq].
Qed.

Ltac find_elem :=
  repeat first [ apply list_elem_of_here | apply list_elem_of_further ].

Lemma root_in_spans_of (w : World) (oid : string) (p : Path) :
  exists r, r ∈ spans_of w oid p /\ sp_name r = "process_order" /\
            sp_attributes r = root_attrs w oid.
Proof.
  destruct p;
    [ exists (root_span w oid) | exists (root_span_failed w oid)
    | exists (root_span w oid) | exists (root_span w oid)
    | exists (root_span w oid) ];
    (split; [cbn [spans_of]; find_elem | split; reflexivity]).
Qed.


(** * Configuration *)

Lemma configuration_fixed (s : Startup) (c : Configuration) :
  configuration s = Some c ->
  endpoint c = "http://localhost:4320/v1/traces" /\
  shutdown_flush_deadline_millis c = 30000.
Proof.
  unfold configuration.
  destruct (BatchSpanProcessor (environ s) None None None None); [|discriminate].
  intros [= <-]. split; reflexivity.
Qed.

(** * The properties of the specification *)

(** Claim C1.  When [process_order] takes the payment-failure branch (its
    two first sleeps complete and the draw of [random.random()] is below
    0.1), the call raises the payment failure and ends exactly three spans:
    validate_order, process_payment and, last, the root process_order.  No
    schedule_shipment span is created: three span ids are used and the span
    store holds no schedule_shipment span that was not there before.  The
    payment span carries the event "Payment failed" (the "failed" event)
    with a "reason" attribute, and the root span is ended. *)
Theorem payment_failure_three_spans (w : World) (oid : string)
    (Hs : sleeps_before_sigint 2 w)
    (Hfail : lt_0_1 (payment_draw w) = true) :
  exists (w' : World) (v p r : Span),
    process_order oid w = (Raised payment_failure, w') /\
    queue w' = (queue w ++ [v; p; r])%list /\
    sp_name v = "validate_order" /\ sp_name p = "process_payment" /\
    sp_name r = "process_order" /\
    sp_ended v = true /\ sp_ended p = true /\ sp_ended r = true /\
    next_id w' = (3 + next_id w)%nat /\
    (forall i s, spans w' !! i = Some s -> sp_name s = "schedule_shipment" ->
                 spans w !! i = Some s) /\
    (exists ev reason, ev ∈ sp_events p /\ ev_name ev = "Payment failed" /\
                       ev_attributes ev !! "reason" = Some reason).
Proof.
  rewrite process_order_run. unfold after_order.
  rewrite (path_payment_failed w Hs Hfail). cbn [outcome_of spans_of].
  eexists _, _, _, _. split; [reflexivity|]. cbn [queue next_id spans length].
  split; [reflexivity|]. do 6 (split; [reflexivity|]). split; [reflexivity|].
  split.
  - intros i s Hi Hn. apply lookup_store_spans in Hi.
    destruct Hi as [Hi|Hi]; [|exact Hi].
    rewrite !elem_of_cons, elem_of_nil in Hi.
    destruct Hi as [->|[->|[->|[]]]]; discriminate Hn.
  - eexists _, _. split; [apply list_elem_of_here|]. split; reflexivity.
Qed.

Lemma payment_failure_three_spans_witness :
  lt_0_1 (payment_draw (initial_world (fun _ => 0) None)) = true /\
  exists w' v p r,
    process_order "ORD-00001" (initial_world (fun _ => 0) None) =
      (Raised payment_failure, w') /\
    queue w' = [v; p; r].
Proof.
  split; [reflexivity|].
  destruct (payment_failure_three_spans (initial_world (fun _ => 0) None)
              "ORD-00001" I eq_refl)
    as (w' & v & p & r & H1 & H2 & _).
  exists w', v, p, r. split; [exact H1 | exact H2].
Defined.

(** Claim C2.  [process_payment] opens a span under the current span, sets
    "order.id" and a "payment.method" chosen among the three methods, sleeps,
    and raises the payment failure if and only if the draw of
    [random.random()] is below 0.1.  On that branch, and only on it, the
    span is marked as an error (attribute "error" = True set by the script,
    status ERROR set when the exception leaves the scope) and carries the
    event "Payment failed" with its reason, recorded before the exception
    event of the raise; on the other branch the call returns and the span
    carries the event "Payment processed successfully" (the "succeeded"
    event), no "error" attribute and no error status. *)
Theorem process_payment_fails_iff (w : World) (oid : string)
    (Hs : sleeps_before_sigint 1 w) :
  let x := rng w (2 + cursor w)%nat mod 2 ^ 53 in
  exists (o : Outcome unit) (w' : World) (p : Span) (method : string),
    process_payment oid w = (o, w') /\
    queue w' = (queue w ++ [p])%list /\
    sp_name p = "process_payment" /\
    sp_parent p = head (ctx w) /\
    span_id (sp_context p) = next_id w /\
    sp_attributes p !! "order.id" = Some (VStr oid) /\
    sp_attributes p !! "payment.method" = Some (VStr method) /\
    method ∈ ["credit_card"; "paypal"; "bank_transfer"] /\
    out w' = (out w ++ [Sleep (mkDuration (2 # 10) (5 # 10)
                                 (rng w (1 + cursor w)%nat mod 2 ^ 53))])%list /\
    (o = Raised payment_failure <-> lt_0_1 x = true) /\
    (lt_0_1 x = true ->
       sp_attributes p !! "error" = Some (VBool true) /\
       sp_status p = error_status payment_failure /\
       sp_events p =
         [mkEvent "Payment failed"
                  (<["reason" := VStr "insufficient_funds"]> ∅);
          exception_event payment_failure]) /\
    (lt_0_1 x = false ->
       o = Returned tt /\
       sp_attributes p !! "error" = None /\
       sp_status p = mkStatus UNSET None /\
       sp_events p = [mkEvent "Payment processed successfully" ∅]).
Proof.
  destruct w as [rg c sg cx n h q ex o0].
  unfold sleeps_before_sigint in Hs.
  cbn [sigint rng cursor Nat.add ctx next_id queue out] in *.
  cbv zeta.
  assert (Hm := chosen_elem "credit_card" ["paypal"; "bank_transfer"] (rg c)).
  destruct (lt_0_1 (rg (S (S c)) mod 2 ^ 53)) eqn:Hp;
    destruct sg as [[|k]|]; try lia;
    (run;
     eexists _, _, _, _; split; [reflexivity|];
     cbn [queue out sp_name sp_parent sp_context span_id sp_attributes
          sp_status sp_events];
     repeat split;
     try solve [reflexivity | exact Hm | discriminate | intros; discriminate ]).
Qed.

Lemma process_payment_fails_iff_witness :
  exists w',
    process_payment "ORD-00001" (initial_world (fun _ => 0) None) =
      (Raised payment_failure, w').
Proof.
  destruct (process_payment_fails_iff (initial_world (fun _ => 0) None)
              "ORD-00001" I)
    as (o & w' & p & m & E & _ & _ & _ & _ & _ & _ & _ & _ & [_ Hiff] & _).
  exists w'. rewrite E, (Hiff eq_refl). reflexivity.
Defined.

(** Claim C3, as stated, fails on the status: with the failure branch not
    taken ([random.random()] = 0.5 at every draw), the spans of
    [process_order "ORD-00001"] do not all have status OK.  The script never
    sets a status, and the status of a span that ends without an exception
    stays UNSET. *)
Lemma success_spans_status_not_ok :
  lt_0_1 (payment_draw (initial_world (fun _ => 2 ^ 52) None)) = false /\
  ~ Forall (fun s => status_code (sp_status s) = OK)
      (queue (snd (process_order "ORD-00001"
                     (initial_world (fun _ => 2 ^ 52) None)))).
Proof.
  split; [reflexivity|].
  rewrite process_order_run. cbn [snd after_order queue].
  change (path_of (initial_world (fun _ => 2 ^ 52) None)) with Completed.
  cbn [spans_of initial_world queue app]. intros H.
  apply Forall_inv in H. discriminate H.
Qed.

(** Claim C3, amended.  When [process_order] is called with no span current
    and does not take the failure branch (its three sleeps complete and the
    draw is not below 0.1), it returns and produces exactly four spans: the
    root and its children validate_order, process_payment and
    schedule_shipment, started in that order (ids n+1, n+2, n+3 after the
    root's n) and ended in that order, the root last.  Every span is ended
    with status UNSET (none is an error), the root has exactly three
    descendants, and the shipment span carries the event "Shipment
    scheduled". *)
Theorem success_four_spans (w : World) (oid : string)
    (Htop : ctx w = [])
    (Hs : sleeps_before_sigint 3 w)
    (Hok : lt_0_1 (payment_draw w) = false) :
  exists (w' : World) (r v p s : Span),
    process_order oid w = (Returned tt, w') /\
    queue w' = (queue w ++ [v; p; s; r])%list /\
    next_id w' = (4 + next_id w)%nat /\
    sp_name r = "process_order" /\ sp_name v = "validate_order" /\
    sp_name p = "process_payment" /\ sp_name s = "schedule_shipment" /\
    span_id (sp_context r) = next_id w /\
    span_id (sp_context v) = (1 + next_id w)%nat /\
    span_id (sp_context p) = (2 + next_id w)%nat /\
    span_id (sp_context s) = (3 + next_id w)%nat /\
    sp_parent r = None /\
    Forall (fun c => sp_parent c = Some (sp_context r)) [v; p; s] /\
    Forall (fun x => sp_status x = mkStatus UNSET None /\ sp_ended x = true)
           [v; p; s; r] /\
    descendant_count [v; p; s; r] r = 3%nat /\
    has_event "Shipment scheduled" s.
Proof.
  rewrite process_order_run. unfold after_order.
  rewrite (path_completed w Hs Hok). cbn [outcome_of spans_of].
  eexists _, _, _, _, _. split; [reflexivity|]. cbn [queue next_id length].
  split; [reflexivity|]. split; [reflexivity|].
  do 4 (split; [reflexivity|]). do 4 (split; [reflexivity|]).
  split; [cbn; by rewrite Htop|].
  split; [repeat constructor|].
  split; [repeat constructor|].
  split.
  - unfold descendant_count.
    cbn [length descends sp_parent validate_span payment_span_ok
         shipment_span root_span sp_context List.filter].
    rewrite Htop. cbn [head hd_error].
    rewrite !bool_decide_eq_true_2 by reflexivity. reflexivity.
  - eexists. split; [apply list_elem_of_here|reflexivity].
Qed.

Lemma success_four_spans_witness :
  exists w' r v p s,
    process_order "ORD-00001" (initial_world (fun _ => 2 ^ 52) None) =
      (Returned tt, w') /\
    queue w' = [v; p; s; r] /\
    descendant_count [v; p; s; r] r = 3%nat.
Proof.
  destruct (success_four_spans (initial_world (fun _ => 2 ^ 52) None)
              "ORD-00001" eq_refl I eq_refl)
    as (w' & r & v & p & s & H1 & H2 & H).
  exists w', r, v, p, s. split; [exact H1|]. split; [exact H2|].
  apply H.
Defined.

(** Claim C4.  A call of [process_order] that starts with an empty
    current-span context ends, whether it returns, raises the payment
    failure or is interrupted, with the context empty again; so does a call
    of [validate_order]; and from any context, [process_order] leaves the
    context it found. *)
Theorem context_stack_restored (w : World) (oid : string)
    (Hempty : ctx w = []) :
  (exists o w',
     process_order oid w = (o, w') /\
     (o = Returned tt \/ o = Raised payment_failure \/
      o = Raised keyboard_interrupt) /\
     ctx w' = []) /\
  (exists o w',
     validate_order oid w = (o, w') /\
     (o = Returned tt \/ o = Raised keyboard_interrupt) /\
     ctx w' = []) /\
  (forall w0, ctx (snd (process_order oid w0)) = ctx w0).
Proof.
  split; [|split].
  - rewrite process_order_run. eexists _, _. split; [reflexivity|].
    split; [destruct (path_of w); cbn [outcome_of]; auto|].
    exact Hempty.
  - destruct w as [rg c sg cx n h q ex o0]. cbn [ctx] in Hempty. subst cx.
    destruct sg as [[|k]|]; run;
      (eexists _, _; split; [reflexivity|]; split; [auto|reflexivity]).
  - intros w0. rewrite process_order_run. reflexivity.
Qed.

Lemma context_stack_restored_witness :
  exists w',
    process_order "ORD-00001" (initial_world (fun _ => 0) None) =
      (Raised payment_failure, w') /\
    ctx w' = [].
Proof.
  destruct (context_stack_restored (initial_world (fun _ => 0) None)
              "ORD-00001" eq_refl)
    as [(o & w' & E & _ & Hc) _].
  exists w'. split; [|exact Hc].
  rewrite E. f_equal.
  rewrite process_order_run in E. injection E as E _. symmetry. exact E.
Defined.

(** Claim C5.  In every iteration of the driver loop, an exception of class
    Exception raised by [process_order] is caught in the iteration and
    logged ("Error processing order <counter>: <message>"), after which the
    iteration goes on with [time.sleep(random.uniform(1, 3))] and the
    incremented counter.  For the payment failure the iteration returns the
    next counter, having printed the error line between the two workflow
    sleeps and its own, and the loop goes on from there: what remains of
    the loop is the loop at the next counter.  The same holds after any
    iteration that returns.  An iteration ends only by returning the next
    counter or by KeyboardInterrupt, and the loop is either still running or
    ended by KeyboardInterrupt: a simulated failure never ends it. *)
Theorem simulated_failure_contained (fuel : nat) (c : N) (w : World) :
  (forall e w1,
     process_order (order_id c) w = (Raised e, w1) -> is_Exception e = true ->
     loop_iteration c w =
       bind (random_uniform 1 3)
            (fun d => bind (time_sleep d) (fun _ => ret (c + 1)%N))
         (set_out (out w1 ++ [Print ("Error processing order " ++ str_int c
                                     ++ ": " ++ exc_msg e)]) w1)) /\
  (sleeps_before_sigint 3 w -> lt_0_1 (payment_draw w) = true ->
     exists w' d,
       loop_iteration c w = (Returned (c + 1)%N, w') /\
       out w' = (out w ++
                 [Sleep (validate_sleep w); Sleep (payment_sleep w);
                  Print ("Error processing order " ++ str_int c
                         ++ ": Payment failed: insufficient funds");
                  Sleep d])%list /\
       while_true (S fuel) c w = while_true fuel (c + 1)%N w' /\
       (exists o2 w2,
          while_true (S (S fuel)) c w = (o2, w2) /\
          root_order_ids (queue w2) =
            (root_order_ids (queue w) ++
             Some (VStr (order_id c)) :: Some (VStr (order_id (c + 1)))
             :: root_order_ids
                  (drop (length (queue (snd (loop_iteration (c + 1)%N w'))))
                        (queue w2)))%list)) /\
  (forall c' w',
     loop_iteration c w = (Returned c', w') ->
     while_true (S fuel) c w = while_true fuel c' w') /\
  (exists o w', loop_iteration c w = (o, w') /\
     (o = Returned (c + 1)%N \/ o = Raised keyboard_interrupt)) /\
  (exists o w', while_true fuel c w = (o, w') /\
     (o = Running \/ o = Raised keyboard_interrupt)).
Proof.
  assert (Hnext : forall c' w',
            loop_iteration c w = (Returned c', w') ->
            forall f, while_true (S f) c w = while_true f c' w').
  { intros c' w' E f. cbn [while_true]. unfold bind. rewrite E. reflexivity. }
  split; [|split; [|split; [|split]]].
  - intros e w1 E He. unfold loop_iteration, try_except, bind at 1.
    fold (order_id c). rewrite E, He. reflexivity.
  - intros Hs Hf.
    assert (H : exists w' d,
               loop_iteration c w = (Returned (c + 1)%N, w') /\
               out w' = (out w ++
                 [Sleep (validate_sleep w); Sleep (payment_sleep w);
                  Print ("Error processing order " ++ str_int c
                         ++ ": Payment failed: insufficient funds");
                  Sleep d])%list).
    { unfold loop_iteration, try_except, bind at 1.
      fold (order_id c). rewrite process_order_run.
      unfold after_order, path_of.
      rewrite Hf. unfold sleeps_before_sigint in Hs.
      destruct w as [rg cu sg cx n h q ex o0]. cbn [sigint] in *.
      destruct sg as [[|[|[|k]]]|]; try lia;
        cbn [outcome_of sigint_of fmap option_fmap option_map spans_of
             effects_of draws_of Nat.sub];
        run; (eexists _, _; split; [reflexivity|]; cbn [out];
              rewrite <- !app_assoc; reflexivity). }
    destruct H as (w' & d & E & Ho). exists w', d.
    split; [exact E|]. split; [exact Ho|].
    split; [exact (Hnext _ _ E fuel)|].
    rewrite (Hnext _ _ E (S fuel)). cbn [while_true]. unfold bind.
    destruct (loop_iteration_run c w)
      as (o1 & w1 & E1 & _ & _ & _ & Hq1 & _).
    rewrite E in E1. injection E1 as <- <-.
    destruct (loop_iteration_run (c + 1)%N w')
      as (o2 & w2 & E2 & _ & _ & _ & Hq2 & _ & Hs2).
    rewrite E2. cbn [snd].
    assert (Ho2 : o2 = Returned (c + 1 + 1)%N \/ o2 = Raised keyboard_interrupt).
    { destruct (sigint w');
        [destruct Hs2 as [[-> _]|[-> _]]|destruct Hs2 as [-> _]]; auto. }
    destruct Ho2 as [-> | ->].
    + destruct (while_true_run fuel (c + 1 + 1)%N w2)
        as (o3 & w3 & n3 & new3 & E3 & _ & _ & _ & Hq3 & _).
      rewrite E3. exists o3, w3. split; [reflexivity|].
      rewrite Hq3, drop_app_length, Hq2, Hq1, !root_order_ids_app,
        !root_order_ids_spans_of, <- !app_assoc. reflexivity.
    + exists (Raised keyboard_interrupt), w2. split; [reflexivity|].
      rewrite drop_all, Hq2, Hq1, !root_order_ids_app,
        !root_order_ids_spans_of, <- !app_assoc. reflexivity.
  - intros c' w' E. exact (Hnext _ _ E fuel).
  - destruct (loop_iteration_run c w) as (o & w' & E & _ & _ & _ & _ & _ & Hs).
    exists o, w'. split; [exact E|].
    destruct (sigint w);
      [destruct Hs as [[-> _]|[-> _]]|destruct Hs as [-> _]]; auto.
  - destruct (while_true_run fuel c w) as (o & w' & n & new & E & Ho & _).
    exists o, w'. split; assumption.
Qed.

Lemma simulated_failure_contained_witness :
  exists w' d,
    loop_iteration 1 (initial_world (fun _ => 0) None) = (Returned 2%N, w') /\
    out w' = [Sleep (validate_sleep (initial_world (fun _ => 0) None));
              Sleep (payment_sleep (initial_world (fun _ => 0) None));
              Print "Error processing order 1: Payment failed: insufficient funds";
              Sleep d] /\
    while_true 2 1 (initial_world (fun _ => 0) None) = while_true 1 2 w'.
Proof.
  destruct (simulated_failure_contained 1 1 (initial_world (fun _ => 0) None))
    as (_ & H & _).
  destruct (H I eq_refl) as (w' & d & E & Ho & Hw & _).
  exists w', d. split; [exact E|]. split; [exact Ho | exact Hw].
Defined.

(** Claim C6, as stated, fails: a Ctrl+C that arrives during the first
    sleep of the run, the one of [validate_order], is observed there.
    [process_order] itself raises KeyboardInterrupt, and the run ends having
    exported two spans only, a validate_order span without its "Order
    validated" event and the root: the step was cut in its middle and the
    payment and shipment steps never ran. *)
Lemma stop_signal_cuts_validate_step :
  fst (process_order (order_id 1) (initial_world (fun _ => 0) (Some 0%nat)))
    = Raised keyboard_interrupt /\
  exists w' v r,
    main 1 (initial_world (fun _ => 0) (Some 0%nat)) = (Returned tt, w') /\
    exported w' = [v; r] /\
    sp_name v = "validate_order" /\ sp_events v = [] /\
    sp_name r = "process_order".
Proof.
  split; [rewrite process_order_run; reflexivity|].
  unfold main, print at 1 2 3, bind at 1 2 3, try_except.
  cbn [while_true]. unfold bind at 1, loop_iteration, try_except, bind at 1.
  rewrite process_order_run.
  match goal with |- context [path_of ?W] =>
    change (path_of W) with StoppedInValidate end.
  cbn [outcome_of is_Exception keyboard_interrupt exc_class
       is_KeyboardInterrupt].
  unfold bind, print, provider_force_flush, force_flush.
  eexists _, _, _. split; [reflexivity|].
  cbn [exported set_out set_exported set_queue queue after_order initial_world
       app spans_of].
  change (path_of _) with StoppedInValidate. cbn [spans_of app].
  repeat split; reflexivity.
Qed.

(** Claim C6, amended.  The stop signal is observed in the sleep during
    which it arrives, also in the middle of a workflow step (a call of
    [process_order] whose first or second sleep it hits raises
    KeyboardInterrupt).  Wherever it is observed, the run ends: [main]
    returns, having printed its two stop lines, flushed with the 30000 ms
    deadline and printed "Done!"; no span is left in the queue and no span
    is current. *)
Theorem stop_signal_flushes (rg : nat -> Z) (k fuel : nat)
    (Hfuel : (k < fuel)%nat) :
  (exists w' pre,
     main fuel (initial_world rg (Some k)) = (Returned tt, w') /\
     queue w' = [] /\ ctx w' = [] /\
     out w' = (pre ++ stop_log)%list) /\
  (forall oid w, sigint w = Some 0%nat \/ sigint w = Some 1%nat ->
     fst (process_order oid w) = Raised keyboard_interrupt).
Proof.
  split.
  - destruct (main_run fuel rg (Some k)) as (o & w' & n & E & Hc & _ & _ & Hs).
    destruct (Hs k eq_refl Hfuel) as (-> & Hq & pre & Ho).
    exists w', pre. auto.
  - intros oid w Hw. rewrite process_order_run. unfold path_of.
    destruct Hw as [-> | ->]; reflexivity.
Qed.

Lemma stop_signal_flushes_witness :
  exists w' pre,
    main 3 (initial_world (fun _ => 0) (Some 2%nat)) = (Returned tt, w') /\
    queue w' = [] /\ ctx w' = [] /\ out w' = (pre ++ stop_log)%list.
Proof.
  apply (stop_signal_flushes (fun _ => 0) 2 3). lia.
Defined.

(** Claim C8, as stated, fails: the endpoint is not overridable at
    startup.  The script passes it to the exporter as a literal, and no two
    startups give it different values. *)
Lemma endpoint_not_overridable : ~ overridable endpoint.
Proof.
  intros (s1 & s2 & c1 & c2 & H1 & H2 & Hne). apply Hne.
  destruct (configuration_fixed s1 c1 H1) as [-> _].
  destruct (configuration_fixed s2 c2 H2) as [-> _]. reflexivity.
Qed.

(** Claim C8, amended.  Whatever the startup, the endpoint is
    "http://localhost:4320/v1/traces" and the shutdown flush deadline is
    30000 ms, and neither is overridable.  The batch size threshold and the
    flush interval are not set by the script: with no environment variable
    they are the SDK defaults 512 and 5000 ms, and the variables
    OTEL_BSP_MAX_EXPORT_BATCH_SIZE and OTEL_BSP_SCHEDULE_DELAY override
    them. *)
Theorem configuration_surface (s : Startup) (c : Configuration)
    (Hc : configuration s = Some c) :
  endpoint c = "http://localhost:4320/v1/traces" /\
  shutdown_flush_deadline_millis c = 30000 /\
  ~ overridable shutdown_flush_deadline_millis /\
  (forall s1 c1, configuration s1 = Some c1 -> endpoint c1 = endpoint c) /\
  configuration (mkStartup (argv s) no_environ) =
    Some (mkConfiguration "http://localhost:4320/v1/traces" 512 5000 30000) /\
  configuration
    (mkStartup (argv s) (environ_with "OTEL_BSP_MAX_EXPORT_BATCH_SIZE" "64")) =
    Some (mkConfiguration "http://localhost:4320/v1/traces" 64 5000 30000) /\
  configuration
    (mkStartup (argv s) (environ_with "OTEL_BSP_SCHEDULE_DELAY" "1000")) =
    Some (mkConfiguration "http://localhost:4320/v1/traces" 512 1000 30000) /\
  overridable batch_size_threshold /\
  overridable flush_interval_millis.
Proof.
  destruct (configuration_fixed s c Hc) as [He Hd].
  split; [exact He|]. split; [exact Hd|].
  split.
  { intros (s1 & s2 & c1 & c2 & H1 & H2 & Hne). apply Hne.
    destruct (configuration_fixed s1 c1 H1) as [_ ->].
    destruct (configuration_fixed s2 c2 H2) as [_ ->]. reflexivity. }
  split.
  { intros s1 c1 H1. destruct (configuration_fixed s1 c1 H1) as [-> _].
    symmetry. exact He. }
  split; [reflexivity|]. split; [reflexivity|]. split; [reflexivity|].
  split.
  - exists (mkStartup [] no_environ),
           (mkStartup [] (environ_with "OTEL_BSP_MAX_EXPORT_BATCH_SIZE" "64")).
    eexists _, _. split; [reflexivity|]. split; [reflexivity|]. discriminate.
  - exists (mkStartup [] no_environ),
           (mkStartup [] (environ_with "OTEL_BSP_SCHEDULE_DELAY" "1000")).
    eexists _, _. split; [reflexivity|]. split; [reflexivity|]. discriminate.
Qed.

Lemma configuration_surface_witness :
  configuration (mkStartup [] no_environ) =
    Some (mkConfiguration "http://localhost:4320/v1/traces" 512 5000 30000) /\
  endpoint (mkConfiguration "http://localhost:4320/v1/traces" 512 5000 30000)
    = "http://localhost:4320/v1/traces".
Proof.
  split; [reflexivity|].
  apply (configuration_surface (mkStartup [] no_environ)
           (mkConfiguration "http://localhost:4320/v1/traces" 512 5000 30000)).
  reflexivity.
Defined.

(** Claim C9.  In every run, of any length, with any draws and wherever it
    is interrupted, the root spans ended so far carry, in order, the order
    ids of the counters 1, 2, ..., n: the i-th call (from 0) receives
    [order_id (1 + i)], and in a run that is not interrupted n is the number
    of iterations.  Every iteration, failed or not, hands its counter's
    order id to [process_order] and, unless interrupted, continues with the
    counter plus one.  An order id is "ORD-" followed by the decimal digits
    of the counter, padded with zeros to at least five characters, from
    which the counter is read back; so distinct counters have distinct
    order ids. *)
Theorem order_ids_sequence (fuel : nat) (rg : nat -> Z) (sg : option nat) :
  (exists o w' n,
     main fuel (initial_world rg sg) = (o, w') /\
     root_order_ids (exported w' ++ queue w') =
       map (fun i => Some (VStr (order_id (1 + N.of_nat i)))) (seq 0 n) /\
     (sg = None -> n = fuel)) /\
  (forall c w, exists o w',
     loop_iteration c w = (o, w') /\
     (o = Returned (c + 1)%N \/ o = Raised keyboard_interrupt) /\
     root_order_ids (queue w') =
       (root_order_ids (queue w) ++ [Some (VStr (order_id c))])%list) /\
  (forall c, order_id c = "ORD-" ++ format_05d c /\
     (5 <= String.length (format_05d c))%nat /\
     N.of_uint <$> NilEmpty.uint_of_string (format_05d c) = Some c) /\
  (forall a b, order_id a = order_id b -> a = b) /\
  order_id 1 = "ORD-00001" /\ order_id 42 = "ORD-00042".
Proof.
  split; [|split; [|split; [|split]]].
  - destruct (main_run fuel rg sg) as (o & w' & n & E & _ & Hids & Hn & _).
    exists o, w', n. split; [exact E|]. split.
    + rewrite Hids. apply ids_of_counters.
    + intros H. apply (Hn H).
  - intros c w.
    destruct (loop_iteration_run c w)
      as (o & w' & E & _ & _ & _ & Hq & _ & Hs).
    exists o, w'. split; [exact E|]. split.
    + destruct (sigint w);
        [destruct Hs as [[-> _]|[-> _]]|destruct Hs as [-> _]]; auto.
    + rewrite Hq, root_order_ids_app, root_order_ids_spans_of. reflexivity.
  - intros c. split; [reflexivity|].
    split; [apply format_05d_width|apply format_05d_parse].
  - exact order_id_inj.
  - split; reflexivity.
Qed.

Lemma order_ids_sequence_witness :
  exists o w',
    main 2 (initial_world (fun _ => 0) None) = (o, w') /\
    root_order_ids (exported w' ++ queue w') =
      [Some (VStr "ORD-00001"); Some (VStr "ORD-00002")].
Proof.
  destruct (order_ids_sequence 2 (fun _ => 0) None)
    as [(o & w' & n & E & Hids & Hn) _].
  exists o, w'. split; [exact E|].
  rewrite Hids, (Hn eq_refl). reflexivity.
Defined.

(** Claim C10.  Every span that a call of [process_order] ends has its
    attributes in range: "order.value" of the root is an integer between 10
    and 1000, "payment.method" is one of credit_card, paypal and
    bank_transfer, "carrier" is one of USPS, FedEx and UPS, and a "Payment
    failed" event has the reason "insufficient_funds"; the root span is
    always among the spans ended.  On the failure path the payment span is
    among them, with its "payment.method" and with the event "Payment
    failed" whose reason is "insufficient_funds"; on the path that
    completes the shipment span is among them, with its "carrier".  Each value between 10 and 1000, each of
    the three methods and each of the three carriers occurs in some call. *)
Theorem attribute_values (w : World) (oid : string) :
  (exists new r,
     queue (snd (process_order oid w)) = (queue w ++ new)%list /\
     Forall attributes_in_range new /\
     r ∈ new /\ sp_name r = "process_order") /\
  (sleeps_before_sigint 2 w -> lt_0_1 (payment_draw w) = true ->
     exists p ev,
       p ∈ queue (snd (process_order oid w)) /\
       sp_name p = "process_payment" /\
       (exists m, sp_attributes p !! "payment.method" = Some (VStr m) /\
                  m ∈ ["credit_card"; "paypal"; "bank_transfer"]) /\
       ev ∈ sp_events p /\ ev_name ev = "Payment failed" /\
       ev_attributes ev !! "reason" = Some (VStr "insufficient_funds")) /\
  (sleeps_before_sigint 3 w -> lt_0_1 (payment_draw w) = false ->
     exists s,
       s ∈ queue (snd (process_order oid w)) /\
       sp_name s = "schedule_shipment" /\
       (exists m, sp_attributes s !! "carrier" = Some (VStr m) /\
                  m ∈ ["USPS"; "FedEx"; "UPS"])) /\
  (forall v, 10 <= v <= 1000 ->
     exists w0 r, r ∈ queue (snd (process_order oid w0)) /\
       sp_name r = "process_order" /\
       sp_attributes r !! "order.value" = Some (VInt v)) /\
  (forall m, m ∈ ["credit_card"; "paypal"; "bank_transfer"] ->
     exists w0 p, p ∈ queue (snd (process_order oid w0)) /\
       sp_name p = "process_payment" /\
       sp_attributes p !! "payment.method" = Some (VStr m)) /\
  (forall m, m ∈ ["USPS"; "FedEx"; "UPS"] ->
     exists w0 s, s ∈ queue (snd (process_order oid w0)) /\
       sp_name s = "schedule_shipment" /\
       sp_attributes s !! "carrier" = Some (VStr m)).
Proof.
  split; [|split; [|split; [|split; [|split]]]].
  - rewrite process_order_run. cbn [snd after_order queue].
    destruct (root_in_spans_of w oid (path_of w)) as (r & Hr & Hn & _).
    exists (spans_of w oid (path_of w)), r.
    split; [reflexivity|]. split; [apply spans_of_in_range|]. split; assumption.
  - intros Hs Hf. rewrite process_order_run. cbn [snd after_order queue].
    rewrite (path_payment_failed w Hs Hf). cbn [spans_of].
    exists (payment_span_failed w oid),
           (mkEvent "Payment failed"
                    (<["reason" := VStr "insufficient_funds"]> ∅)).
    split; [apply elem_of_app; right; find_elem|].
    split; [reflexivity|].
    split; [exists (payment_method w); split;
            [unfold payment_span_failed, payment_attrs; cbn [sp_attributes];
             lookup_attr | apply chosen_elem]|].
    split; [apply list_elem_of_here|]. split; [reflexivity|].
    apply lookup_insert_eq.
  - intros Hs Hf. rewrite process_order_run. cbn [snd after_order queue].
    rewrite (path_completed w Hs Hf). cbn [spans_of].
    exists (shipment_span w oid true).
    split; [apply elem_of_app; right; find_elem|].
    split; [reflexivity|].
    exists (carrier w). split;
      [unfold shipment_span; cbn [sp_attributes]; lookup_attr
      | apply chosen_elem].
  - intros v Hv. set (w0 := initial_world (fun _ => v - 10) None).
    destruct (root_in_spans_of w0 oid (path_of w0)) as (r & Hr & Hn & Ha).
    exists w0, r. rewrite process_order_run. cbn [snd after_order queue].
    split; [exact Hr|]. split; [exact Hn|]. rewrite Ha. unfold root_attrs.
    rewrite lookup_insert_eq. unfold order_value.
    cbn [rng cursor w0 initial_world].
    do 2 f_equal. rewrite Z.mod_small by lia. lia.
  - intros m Hm. rewrite !elem_of_cons, elem_of_nil in Hm.
    destruct Hm as [->|[->|[->|[]]]];
      [ set (w0 := initial_world (fun _ => 0) None)
      | set (w0 := initial_world (fun _ => 1) None)
      | set (w0 := initial_world (fun _ => 2) None) ];
      (exists w0, (payment_span_failed w0 oid); rewrite process_order_run;
       cbn [snd after_order queue];
       change (path_of w0) with PaymentFailed;
       split; [cbn [spans_of app initial_world queue w0]; find_elem|];
       split; [reflexivity|];
       unfold payment_span_failed, payment_attrs; cbn [sp_attributes];
       lookup_attr).
  - intros m Hm. rewrite !elem_of_cons, elem_of_nil in Hm.
    destruct Hm as [->|[->|[->|[]]]];
      [ set (w0 := initial_world (draws (2 ^ 52) 0) None)
      | set (w0 := initial_world (draws (2 ^ 52) 1) None)
      | set (w0 := initial_world (draws (2 ^ 52) 2) None) ];
      (exists w0, (shipment_span w0 oid true); rewrite process_order_run;
       cbn [snd after_order queue];
       change (path_of w0) with Completed;
       split; [cbn [spans_of app initial_world queue w0]; find_elem|];
       split; [reflexivity|];
       unfold shipment_span; cbn [sp_attributes];
       lookup_attr).
Qed.

Lemma attribute_values_witness :
  (exists p ev,
     p ∈ queue (snd (process_order "ORD-00001"
                       (initial_world (fun _ => 0) None))) /\
     sp_name p = "process_payment" /\
     ev ∈ sp_events p /\ ev_name ev = "Payment failed" /\
     ev_attributes ev !! "reason" = Some (VStr "insufficient_funds")) /\
  (exists w0 r, r ∈ queue (snd (process_order "ORD-00001" w0)) /\
     sp_name r = "process_order" /\
     sp_attributes r !! "order.value" = Some (VInt 1000)).
Proof.
  destruct (attribute_values (initial_world (fun _ => 0) None) "ORD-00001")
    as (_ & Hfail & _ & Hval & _).
  split.
  - destruct (Hfail I eq_refl) as (p & ev & Hp & Hn & _ & He & Hev & Hr).
    exists p, ev. auto.
  - apply Hval. lia.
Defined.

(** * Further properties of the script *)

(** Extra X1 ([validate_order], lines 55-61).  When its sleep is not
    interrupted, [validate_order] returns and ends exactly one span, named
    validate_order, whose parent is the span that was current (none at top
    level), whose only attribute is "order.id", whose only event is "Order
    validated" and whose status is unset; it sleeps once, between 0.1 and
    0.3 s, and leaves the current span as it was. *)
Theorem validate_order_completes (w : World) (oid : string)
    (Hs : sleeps_before_sigint 1 w) :
  exists (w' : World) (v : Span),
    validate_order oid w = (Returned tt, w') /\
    queue w' = (queue w ++ [v])%list /\
    sp_name v = "validate_order" /\
    sp_parent v = head (ctx w) /\
    sp_attributes v = <["order.id" := VStr oid]> ∅ /\
    sp_events v = [mkEvent "Order validated" ∅] /\
    sp_status v = mkStatus UNSET None /\
    sp_ended v = true /\
    out w' = (out w ++ [Sleep (mkDuration (1 # 10) (3 # 10)
                                 (rng w (cursor w) mod 2 ^ 53))])%list /\
    ctx w' = ctx w /\
    next_id w' = S (next_id w).
Proof.
  destruct w as [rg c sg cx n h q ex o0].
  unfold sleeps_before_sigint in Hs. cbn [sigint] in Hs.
  cbn [rng cursor ctx next_id queue out].
  destruct sg as [[|k]|]; try lia;
    (run; eexists _, _; split; [reflexivity|];
     cbn [queue out ctx next_id sp_name sp_parent sp_attributes sp_events
          sp_status sp_ended];
     repeat split; reflexivity).
Qed.

Lemma validate_order_completes_witness :
  exists w' v,
    validate_order "ORD-00001" (initial_world (fun _ => 0) None) =
      (Returned tt, w') /\
    queue w' = [v] /\ sp_parent v = None.
Proof.
  destruct (validate_order_completes (initial_world (fun _ => 0) None)
              "ORD-00001" I)
    as (w' & v & E & Hq & _ & Hp & _).
  exists w', v. split; [exact E|]. split; [exact Hq | exact Hp].
Defined.

(** Extra X2 ([schedule_shipment], lines 79-86).  When its sleep is not
    interrupted, [schedule_shipment] returns and ends exactly one span,
    named schedule_shipment, child of the current span, with the attributes
    "order.id" and "carrier" (one of USPS, FedEx, UPS) and no other, the
    single event "Shipment scheduled" and an unset status; it sleeps once,
    between 0.1 and 0.2 s. *)
Theorem schedule_shipment_completes (w : World) (oid : string)
    (Hs : sleeps_before_sigint 1 w) :
  let c := chosen "USPS" ["USPS"; "FedEx"; "UPS"] (rng w (cursor w)) in
  exists (w' : World) (s : Span),
    schedule_shipment oid w = (Returned tt, w') /\
    queue w' = (queue w ++ [s])%list /\
    sp_name s = "schedule_shipment" /\
    sp_parent s = head (ctx w) /\
    sp_attributes s =
      <["carrier" := VStr c]> (<["order.id" := VStr oid]> ∅) /\
    c ∈ ["USPS"; "FedEx"; "UPS"] /\
    sp_events s = [mkEvent "Shipment scheduled" ∅] /\
    sp_status s = mkStatus UNSET None /\
    sp_ended s = true /\
    out w' = (out w ++ [Sleep (mkDuration (1 # 10) (2 # 10)
                                 (rng w (1 + cursor w)%nat mod 2 ^ 53))])%list /\
    ctx w' = ctx w.
Proof.
  destruct w as [rg c sg cx n h q ex o0].
  unfold sleeps_before_sigint in Hs. cbn [sigint] in Hs.
  cbn [rng cursor ctx next_id queue out Nat.add]. cbv zeta.
  assert (Hm := chosen_elem "USPS" ["FedEx"; "UPS"] (rg c)).
  destruct sg as [[|k]|]; try lia;
    (run; eexists _, _; split; [reflexivity|];
     cbn [queue out ctx next_id sp_name sp_parent sp_attributes sp_events
          sp_status sp_ended];
     repeat split; solve [reflexivity | exact Hm]).
Qed.

Lemma schedule_shipment_completes_witness :
  exists w' s,
    schedule_shipment "ORD-00001" (initial_world (fun _ => 1) None) =
      (Returned tt, w') /\
    queue w' = [s] /\
    sp_attributes s =
      <["carrier" := VStr "FedEx"]> (<["order.id" := VStr "ORD-00001"]> ∅).
Proof.
  destruct (schedule_shipment_completes (initial_world (fun _ => 1) None)
              "ORD-00001" I)
    as (w' & s & E & Hq & _ & _ & Ha & _).
  exists w', s. split; [exact E|]. split; [exact Hq | exact Ha].
Defined.

Lemma has_name_iff (new : list Span) (nm : string) :
  (exists x, x ∈ new /\ sp_name x = nm) <-> nm ∈ map sp_name new.
Proof.
  change (map sp_name new) with (sp_name <$> new). rewrite list_elem_of_fmap.
  split; intros (x & H1 & H2); exists x; auto.
Qed.

Lemma names_of_spans_of (w : World) (oid : string) (p : Path) :
  map sp_name (spans_of w oid p) =
  match p with
  | StoppedInValidate => ["validate_order"; "process_order"]
  | StoppedInPayment | PaymentFailed =>
      ["validate_order"; "process_payment"; "process_order"]
  | StoppedInShipment | Completed =>
      ["validate_order"; "process_payment"; "schedule_shipment";
       "process_order"]
  end.
Proof. destruct p; reflexivity. Qed.

Ltac name_in :=
  rewrite ?elem_of_cons, ?elem_of_nil;
  split; intros;
  repeat match goal with
         | H : _ \/ _ |- _ => destruct H
         | H : _ /\ _ |- _ => destruct H
         | H : False |- _ => destruct H
         end;
  solve [ discriminate | lia | exact I | auto 6 | split; solve [lia | reflexivity | exact I] ].

(** Extra X3 ([process_order], lines 43-50).  The steps run in sequence and
    a later step starts only when the earlier ones have completed: a call
    ends a process_payment span exactly when the sleep of validation is not
    interrupted, and a schedule_shipment span exactly when, moreover, the
    sleep of payment is not interrupted and the payment does not fail. *)
Theorem later_steps_need_earlier (w : World) (oid : string) :
  exists new,
    queue (snd (process_order oid w)) = (queue w ++ new)%list /\
    ((exists p, p ∈ new /\ sp_name p = "process_payment") <->
     sleeps_before_sigint 1 w) /\
    ((exists s, s ∈ new /\ sp_name s = "schedule_shipment") <->
     sleeps_before_sigint 2 w /\ lt_0_1 (payment_draw w) = false).
Proof.
  rewrite process_order_run. cbn [snd after_order queue].
  exists (spans_of w oid (path_of w)). split; [reflexivity|].
  rewrite !has_name_iff, names_of_spans_of.
  unfold path_of, sleeps_before_sigint.
  destruct (sigint w) as [[|[|[|k]]]|];
    destruct (lt_0_1 (payment_draw w)); split; name_in.
Qed.

(** Extra X4 ([process_order], line 52).  The line "Order <id> processed
    successfully" is printed exactly by the calls that return: a call whose
    payment fails or that is interrupted prints nothing, and in a call that
    returns the line is the last effect, after the three sleeps. *)
Theorem success_line_iff_returned (w : World) (oid : string) :
  exists log,
    out (snd (process_order oid w)) = (out w ++ log)%list /\
    (success_line oid ∈ log <-> fst (process_order oid w) = Returned tt) /\
    (Forall (fun e => exists d, e = Sleep d) log \/
     exists d1 d2 d3, log = [Sleep d1; Sleep d2; Sleep d3; success_line oid]).
Proof.
  rewrite process_order_run. cbn [snd fst after_order out].
  exists (effects_of (path_of w) w oid). split; [reflexivity|].
  destruct (path_of w); cbn [effects_of outcome_of]; (split; [split|]);
    try solve
      [ intros H; rewrite ?elem_of_cons, ?elem_of_nil in H;
        repeat (destruct H as [H|H]); solve [discriminate H | destruct H]
      | discriminate
      | reflexivity
      | intros _; unfold success_line; find_elem
      | left; repeat constructor; eexists; reflexivity
      | right; eexists _, _, _; reflexivity ].
Qed.

(** Extra X5 ([with tracer.start_as_current_span], lines 39, 57, 65, 81).
    Whatever way a call of [process_order] ends (return, payment failure,
    interrupt), it leaves no span open: every span object it created or
    touched is ended and was handed to the processor, and every other span
    object is as it was. *)
Theorem no_span_left_open (w : World) (oid : string) (i : nat) :
  exists new,
    queue (snd (process_order oid w)) = (queue w ++ new)%list /\
    (spans (snd (process_order oid w)) !! i = spans w !! i \/
     exists s, spans (snd (process_order oid w)) !! i = Some s /\
               s ∈ new /\ sp_ended s = true).
Proof.
  rewrite process_order_run. cbn [snd after_order queue spans].
  exists (spans_of w oid (path_of w)). split; [reflexivity|].
  destruct (store_spans (spans_of w oid (path_of w)) (spans w) !! i)
    as [s|] eqn:E.
  - destruct (lookup_store_spans _ _ _ _ E) as [Hin|Hold].
    + right. exists s. split; [reflexivity|]. split; [exact Hin|].
      destruct (path_of w); cbn [spans_of] in Hin;
        rewrite ?elem_of_cons, ?elem_of_nil in Hin;
        repeat (destruct Hin as [->|Hin]); try (exfalso; exact Hin);
        reflexivity.
    + left. symmetry. exact Hold.
  - left. clear -E. revert E.
    generalize (spans_of w oid (path_of w)). intros l.
    induction l as [|t l IH]; cbn [store_spans foldr]; [congruence|].
    rewrite lookup_insert. case_decide; [discriminate|]. exact IH.
Qed.

(** Extra X6 (nesting of the with-scopes, lines 39-50, 57, 65, 81).  On
    every path the spans a call ends are its step spans, at least one and
    at most three, followed by the root: every step ends before the root
    does, has the root as its parent and carries the root's trace id.  The
    root itself has the caller's current span as parent, none at top
    level. *)
Theorem steps_nest_in_root (w : World) (oid : string) :
  exists steps root,
    queue (snd (process_order oid w)) = (queue w ++ steps ++ [root])%list /\
    sp_name root = "process_order" /\
    sp_parent root = head (ctx w) /\
    span_id (sp_context root) = next_id w /\
    (1 <= length steps <= 3)%nat /\
    Forall (fun c => sp_parent c = Some (sp_context root) /\
                     trace_id (sp_context c) = trace_id (sp_context root) /\
                     (next_id w < span_id (sp_context c))%nat /\
                     sp_name c <> "process_order") steps.
Proof.
  rewrite process_order_run. cbn [snd after_order queue].
  destruct (path_of w); cbn [spans_of];
    [ exists [validate_span w oid true; payment_span_ok w oid;
              shipment_span w oid true], (root_span w oid)
    | exists [validate_span w oid true; payment_span_failed w oid],
             (root_span_failed w oid)
    | exists [validate_span w oid false], (root_span w oid)
    | exists [validate_span w oid true; payment_span_stopped w oid],
             (root_span w oid)
    | exists [validate_span w oid true; payment_span_ok w oid;
              shipment_span w oid false], (root_span w oid) ];
    (split; [reflexivity|]; do 3 (split; [reflexivity|]);
     split; [cbn [length]; lia|];
     repeat (apply List.Forall_cons); try apply List.Forall_nil;
     (split; [reflexivity|]; split; [reflexivity|];
      split; [cbn; lia | discriminate])).
Qed.

(** Extra X7 (body of [process_payment], lines 66-74).  On the failure
    branch the span is marked and the event recorded before the exception
    is raised: when the body raises, the span is still open, already has
    "error" = True and, as its last event, "Payment failed" with the reason
    "insufficient_funds"; its status has not been touched by the script. *)
Theorem payment_marked_before_raise (w : World) (oid : string)
    (span : SpanContext) (s : Span)
    (Hlive : spans w !! span_id span = Some s)
    (Hopen : sp_ended s = false)
    (Hs : sleeps_before_sigint 1 w)
    (Hfail : lt_0_1 (rng w (2 + cursor w)%nat mod 2 ^ 53) = true) :
  exists (w1 : World) (s1 : Span),
    process_payment_body oid span w = (Raised payment_failure, w1) /\
    spans w1 !! span_id span = Some s1 /\
    sp_ended s1 = false /\
    sp_attributes s1 !! "error" = Some (VBool true) /\
    sp_attributes s1 !! "order.id" = Some (VStr oid) /\
    sp_events s1 =
      (sp_events s ++
       [mkEvent "Payment failed"
                (<["reason" := VStr "insufficient_funds"]> ∅)])%list /\
    sp_status s1 = sp_status s /\
    queue w1 = queue w.
Proof.
  destruct w as [rg c sg cx n h q ex o0].
  destruct s as [nm sc par attrs evs st en]. destruct span as [tid sid].
  unfold sleeps_before_sigint in Hs.
  cbn [sigint rng cursor spans sp_ended Nat.add span_id] in *. subst en.
  destruct sg as [[|k]|]; try lia;
    (unfold process_payment_body; step; rewrite Hlive; run;
     eexists _, _; split; [reflexivity|];
     cbn [spans queue sp_ended sp_attributes sp_events sp_status];
     split; [apply lookup_insert_eq|];
     split; [reflexivity|];
     split; [apply lookup_insert_eq|];
     split; [do 2 (rewrite lookup_insert_ne by discriminate);
             apply lookup_insert_eq|];
     repeat split; reflexivity).
Qed.

Lemma payment_marked_before_raise_witness :
  exists w1,
    process_payment_body "ORD-00001" (mkSpanContext 0 0)
      (snd (start_span "process_payment" (initial_world (fun _ => 0) None)))
    = (Raised payment_failure, w1).
Proof.
  destruct (payment_marked_before_raise
              (snd (start_span "process_payment"
                      (initial_world (fun _ => 0) None)))
              "ORD-00001" (mkSpanContext 0 0)
              (mkSpan "process_payment" (mkSpanContext 0 0) None ∅ []
                      (mkStatus UNSET None) false)
              eq_refl eq_refl I eq_refl)
    as (w1 & s1 & E & _).
  exists w1. exact E.
Defined.






Lemma while_true_span_count (fuel : nat) : forall (c : N) (w : World),
  sigint w = None ->
  exists n,
    length (queue (snd (while_true fuel c w))) = (length (queue w) + n)%nat /\
    (3 * fuel <= n <= 4 * fuel)%nat.
Proof.
  induction fuel as [|fuel IH]; intros c w Hn.
  - exists 0%nat. cbn. lia.
  - cbn [while_true]. unfold bind.
    destruct (loop_iteration_run c w)
      as (o1 & w1 & E & _ & _ & _ & Hq & _ & Hs).
    rewrite E. rewrite Hn in Hs. destruct Hs as [-> Hn1].
    destruct (IH (c + 1)%N w1 Hn1) as (n & Hlen & Hb).
    exists (length (spans_of w (order_id c) (path_of w)) + n)%nat.
    split; [rewrite Hlen, Hq, length_app; lia|].
    unfold path_of. rewrite Hn.
    destruct (lt_0_1 (payment_draw w)); cbn [spans_of length]; lia.
Qed.

(** Extra X10 ([main] with [process_order], lines 37-52 and 96-104).  In a
    run that is not interrupted every iteration ends three spans (payment
    failed) or four (order completed): after any number of iterations the
    processor has been handed, exported or still queued, at least three and
    at most four times as many spans as there were iterations, one root
    span per iteration. *)
Theorem spans_per_iteration (fuel : nat) (rg : nat -> Z) :
  exists w',
    main fuel (initial_world rg None) = (Running, w') /\
    (3 * fuel <= length (exported w' ++ queue w') <= 4 * fuel)%nat /\
    length (root_order_ids (exported w' ++ queue w')) = fuel.
Proof.
  destruct (main_run fuel rg None) as (o & w' & n & E & _ & Hids & Hn & _).
  destruct (Hn eq_refl) as [-> ->]. exists w'. split; [exact E|].
  unfold main, print at 1 2 3, bind at 1 2 3, try_except in E.
  match type of E with context [while_true fuel 1%N ?W] =>
    destruct (while_true_span_count fuel 1%N W eq_refl) as (k & Hlen & Hb);
    destruct (while_true_run fuel 1%N W)
      as (o & w1 & n & new & E1 & _ & _ & He & _);
    rewrite E1 in E, Hlen; cbn [snd] in Hlen
  end.
  assert (w1 = w') as ->.
  { destruct o as [[]|e|]; [congruence| |congruence].
    destruct (is_KeyboardInterrupt e); [|congruence].
    unfold bind, print, provider_force_flush, force_flush in E. discriminate E. }
  cbn [exported set_out initial_world] in He.
  split; [rewrite He; cbn [app];
          cbn [queue set_out initial_world length] in Hlen; lia|].
  rewrite Hids. unfold ids_of, counters. by rewrite !length_map, length_seq.
Qed.

Lemma spans_of_roots (w : World) (oid : string) (p : Path) :
  ctx w = [] -> Forall root_iff_no_parent (spans_of w oid p).
Proof.
  intros Hc. unfold root_iff_no_parent.
  destruct p; cbn [spans_of]; repeat (apply List.Forall_cons);
    try apply List.Forall_nil;
    cbv [validate_span payment_span_stopped payment_span_ok
         payment_span_failed shipment_span root_span root_span_failed
         is_root_span sp_name sp_parent];
    rewrite ?Hc; split; intros H; solve [reflexivity | discriminate H].
Qed.

Lemma while_true_roots (fuel : nat) : forall (c : N) (w : World),
  ctx w = [] ->
  exists o w' new,
    while_true fuel c w = (o, w') /\
    (o = Running \/ o = Raised keyboard_interrupt) /\
    exported w' = exported w /\
    queue w' = (queue w ++ new)%list /\
    Forall root_iff_no_parent new.
Proof.
  induction fuel as [|fuel IH]; intros c w Hc.
  - exists Running, w, []. split; [reflexivity|]. split; [by left|].
    split; [reflexivity|]. split; [by rewrite app_nil_r | constructor].
  - cbn [while_true]. unfold bind.
    destruct (loop_iteration_run c w)
      as (o1 & w1 & E & _ & Hc1 & He1 & Hq1 & _ & Hs).
    rewrite E.
    assert (Ho1 : o1 = Returned (c + 1)%N \/ o1 = Raised keyboard_interrupt).
    { destruct (sigint w);
        [destruct Hs as [[-> _]|[-> _]]|destruct Hs as [-> _]]; auto. }
    destruct Ho1 as [-> | ->].
    + destruct (IH (c + 1)%N w1) as (o & w' & new & E' & Ho & He & Hq & F).
      { rewrite Hc1. exact Hc. }
      rewrite E'.
      exists o, w', (spans_of w (order_id c) (path_of w) ++ new)%list.
      split; [reflexivity|]. split; [exact Ho|].
      split; [congruence|].
      split; [rewrite Hq, Hq1, app_assoc; reflexivity|].
      apply Forall_app. split; [apply spans_of_roots; exact Hc | exact F].
    + exists (Raised keyboard_interrupt), w1,
             (spans_of w (order_id c) (path_of w)).
      split; [reflexivity|]. split; [by right|].
      split; [exact He1|]. split; [exact Hq1|].
      apply spans_of_roots; exact Hc.
Qed.

(** Extra X11 ([main] calling [process_order], lines 39 and 96-99).  The
    loop calls [process_order] with no span current, so every order is a
    trace of its own: in every run, however it goes, a span handed to the
    processor has no parent exactly when it is a process_order span; the
    step spans all have a parent. *)
Theorem each_order_own_trace (fuel : nat) (rg : nat -> Z) (sg : option nat) :
  exists o w',
    main fuel (initial_world rg sg) = (o, w') /\
    Forall root_iff_no_parent (exported w' ++ queue w').
Proof.
  unfold main, print at 1 2 3, bind at 1 2 3, try_except.
  match goal with |- context [while_true fuel 1%N ?W] =>
    destruct (while_true_roots fuel 1%N W eq_refl)
      as (o & w1 & new & E & Ho & He & Hq & F);
    rewrite E
  end.
  cbn [exported queue set_out initial_world app] in He, Hq.
  destruct Ho as [-> | ->].
  - exists Running, w1. split; [reflexivity|]. rewrite He, Hq. exact F.
  - cbn [is_KeyboardInterrupt keyboard_interrupt exc_class].
    unfold bind, print, provider_force_flush, force_flush.
    eexists _, _. split; [reflexivity|].
    cbn [exported queue set_out set_exported set_queue].
    rewrite He, Hq, app_nil_r. exact F.
Qed.

(** * The interrupt, wherever it arrives *)



